(** * Weather Markdown Generator: a shallow embedding of [weather_markdown.py]

    The program fetches the weather forecast feed of Macau as XML, extracts a
    few text fields and substitutes them into a two-part markdown template.

    Conventions of the embedding.
    - A Python [str] is the list of its Unicode code points ([list N]);
      string literals of the source are written as Rocq strings and decoded
      from UTF-8 by [u].
    - A Python value that is either a [str] or [None] is a [pyval].
    - Code that may raise returns an [outcome]; [Raise e] carries the class
      of the exception as far as the program tells classes apart.
    - What the program gets from outside (the template directory, the file
      system, the network, the XML parser, the clock, and the parts of
      [str.format] that depend on the Python runtime) is a field of the
      record [world]. *)

From Stdlib Require Import List NArith Bool String Ascii Lia Sorted
  Permutation.
Import ListNotations.
Local Open Scope N_scope.
Local Open Scope list_scope.

Set Implicit Arguments.
Set Warnings "-register-all".

(** ** Strings as sequences of code points *)

Module Str.

Definition char := N.
Definition str := list char.

(** UTF-8 decoding of the bytes of a Rocq string literal: [need] continuation
    bytes are still expected for the code point accumulated in [acc]. *)
Fixpoint utf8_decode (need : nat) (acc : N) (bs : list N) : str :=
  match bs with
  | [] => []
  | b :: bs' =>
      match need with
      | O =>
          if b <? 128 then b :: utf8_decode O 0 bs'
          else if b <? 224 then utf8_decode 1 (N.land b 31) bs'
          else if b <? 240 then utf8_decode 2 (N.land b 15) bs'
          else utf8_decode 3 (N.land b 7) bs'
      | S O => (acc * 64 + N.land b 63) :: utf8_decode O 0 bs'
      | S n => utf8_decode n (acc * 64 + N.land b 63) bs'
      end
  end.

Definition u (s : string) : str :=
  utf8_decode O 0 (map N_of_ascii (list_ascii_of_string s)).

(** [a == b] on strings. *)
Fixpoint eqb (a b : str) : bool :=
  match a, b with
  | [], [] => true
  | x :: a', y :: b' => (x =? y) && eqb a' b'
  | _, _ => false
  end.

(** [s.startswith(p)] *)
Fixpoint startswith (p s : str) : bool :=
  match p, s with
  | [], _ => true
  | x :: p', y :: s' => (x =? y) && startswith p' s'
  | _ :: _, [] => false
  end.

(** [s.endswith(p)] *)
Definition endswith (p s : str) : bool := startswith (rev p) (rev s).

(** [p in s] *)
Fixpoint contains (p s : str) : bool :=
  startswith p s || match s with [] => false | _ :: s' => contains p s' end.

(** [s.split(sep)] for a non-empty [sep]: the pieces between the
    non-overlapping occurrences of [sep], found from the left.  [skip] counts
    the characters of a matched separator still to be passed over and [acc]
    holds the current piece, reversed. *)
Fixpoint split_from (sep : str) (skip : nat) (acc : str) (s : str) : list str :=
  match s with
  | [] => [rev acc]
  | c :: s' =>
      match skip with
      | S k => split_from sep k acc s'
      | O =>
          if startswith sep s
          then rev acc :: split_from sep (pred (List.length sep)) [] s'
          else split_from sep O (c :: acc) s'
      end
  end.

Definition split (sep s : str) : list str := split_from sep O [] s.

(** The code points for which [str.isspace()] holds; [str.strip()] removes
    them from both ends. *)
Definition isspace (c : char) : bool :=
  ((9 <=? c) && (c <=? 13)) || ((28 <=? c) && (c <=? 32))
  || (c =? 133) || (c =? 160) || (c =? 5760)
  || ((8192 <=? c) && (c <=? 8202))
  || (c =? 8232) || (c =? 8233) || (c =? 8239) || (c =? 8287) || (c =? 12288).

Fixpoint lstrip (s : str) : str :=
  match s with
  | c :: s' => if isspace c then lstrip s' else s
  | [] => []
  end.

Definition rstrip (s : str) : str := rev (lstrip (rev s)).
Definition strip (s : str) : str := rstrip (lstrip s).

(** Lexicographic order by code point, the order of [sorted] on strings. *)
Fixpoint leb (a b : str) : bool :=
  match a, b with
  | [], _ => true
  | _ :: _, [] => false
  | x :: a', y :: b' => (x <? y) || ((x =? y) && leb a' b')
  end.

Fixpoint insert_sorted (x : str) (l : list str) : list str :=
  match l with
  | [] => [x]
  | y :: l' => if leb x y then x :: l else y :: insert_sorted x l'
  end.

(** [sorted(l)] *)
Definition sorted (l : list str) : list str := fold_right insert_sorted [] l.

(** [a] occurs in [b] as a contiguous run of characters. *)
Definition substring_of (a b : str) : Prop := exists l r, b = l ++ a ++ r.

End Str.

Import Str.

(** ** Values and exceptions *)

(** The text of an XML element, and so every value the program substitutes
    into a template, is a [str] or [None]. *)
Inductive pyval : Type :=
  | PyStr (s : str)
  | PyNone.

(** [str(v)] *)
Definition py_str (v : pyval) : str :=
  match v with
  | PyStr s => s
  | PyNone => u "None"
  end.

(** [v == lit] for a string literal [lit]. *)
Definition py_eq_str (v : pyval) (lit : str) : bool :=
  match v with
  | PyStr s => Str.eqb s lit
  | PyNone => false
  end.

(** The classes of exception the program tells apart in its [except]
    clauses, and the ones it raises itself.  [FormatError] stands for
    whatever [str.format] raises on a template it cannot render
    ([ValueError], [KeyError], [IndexError], [TypeError]; the program
    handles them alike); a [UnicodeDecodeError] is a [ValueError]. *)
Inductive exn : Type :=
  | FileNotFoundError
  | ValueError
  | RequestException
  | ParseError
  | AttributeError
  | FormatError
  | OtherError.

Inductive outcome (A : Type) : Type :=
  | Ok (a : A)
  | Raise (e : exn).

Arguments Ok {A} a.
Arguments Raise {A} e.

Definition bind {A B : Type} (m : outcome A) (f : A -> outcome B) : outcome B :=
  match m with
  | Ok a => f a
  | Raise e => Raise e
  end.

Notation "x <- m ;; k" := (bind m (fun x => k))
  (at level 61, m at next level, right associativity).


(** ** XML trees, as [xml.etree.ElementTree] builds them *)

(** An element has a tag, a text ([None] when no character data comes before
    its first child or its end tag) and children in document order.
    Attributes and tails are never read by the program. *)
Inductive element : Type :=
  | Element (tag : str) (text : pyval) (children : list element).

Definition tag (e : element) : str := let (t, _, _) := e in t.
Definition text (e : element) : pyval := let (_, x, _) := e in x.
Definition children (e : element) : list element := let (_, _, cs) := e in cs.

(** [list(e.iter())]: the element and all its descendants, in document
    order. *)
Fixpoint iter (e : element) : list element :=
  match e with
  | Element _ _ cs => e :: flat_map iter cs
  end.

Definition has_tag (name : str) (e : element) : bool := Str.eqb (tag e) name.

(** [e.findall(".//name")]: the descendants of [e] ([e] itself excluded)
    with that tag, in document order. *)
Definition findall_desc (name : str) (e : element) : list element :=
  filter (has_tag name) (flat_map iter (children e)).

(** [e.find(".//name")] *)
Definition find_desc (name : str) (e : element) : option element :=
  hd_error (findall_desc name e).

(** [e.find("name")]: the first child of [e] with that tag. *)
Definition find_child (name : str) (e : element) : option element :=
  List.find (has_tag name) (children e).

(** ** [str.format] with keyword arguments only *)

Module Fmt.

Definition lbrace : char := 123.
Definition rbrace : char := 125.
Definition lbracket : char := 91.
Definition rbracket : char := 93.
Definition colon : char := 58.
Definition bang : char := 33.

(** What the scanner of a format string yields: literal characters and
    replacement fields, until the end of the string or the place where the
    scanner raises [ValueError]. *)
Inductive markup : Type :=
  | MEnd
  | MError
  | MChar (c : char) (k : markup)
  | MField (field_name : str) (conversion : option char) (format_spec : str)
           (needs_expanding : bool) (k : markup).

(** The scanner's position within the markup.  Accumulated names and
    specifications are kept reversed. *)
Inductive scan_state : Type :=
  | SLiteral
  | SOpen
  | SClose
  | SName (acc : str) (in_bracket : bool)
  | SBang (name : str)
  | SConv (name : str) (conv : option char)
  | SSpec (name : str) (conv : option char) (acc : str) (count : nat)
          (expand : bool).

Inductive action : Type :=
  | Go (st : scan_state)
  | EmitChar (c : char)
  | EmitField (name : str) (conv : option char) (spec : str) (expand : bool)
  | Fail.

(** One character of a field name.  Between [[] and []] nothing is
    interpreted; elsewhere [{] is refused and [}], [:] and [!] end the
    name. *)
Definition name_step (acc : str) (in_bracket : bool) (c : char) : action :=
  if in_bracket then Go (SName (c :: acc) (negb (c =? rbracket)))
  else if c =? lbrace then Fail
  else if c =? lbracket then Go (SName (c :: acc) true)
  else if c =? rbrace then EmitField (rev acc) None [] false
  else if c =? colon then Go (SSpec (rev acc) None [] 1 false)
  else if c =? bang then Go (SBang (rev acc))
  else Go (SName (c :: acc) false).

Definition step (st : scan_state) (c : char) : action :=
  match st with
  | SLiteral =>
      if c =? lbrace then Go SOpen
      else if c =? rbrace then Go SClose
      else EmitChar c
  | SOpen => if c =? lbrace then EmitChar lbrace else name_step [] false c
  | SClose => if c =? rbrace then EmitChar rbrace else Fail
  | SName acc in_bracket => name_step acc in_bracket c
  | SBang name => Go (SConv name (if c =? 0 then None else Some c))
  | SConv name conv =>
      if c =? rbrace then EmitField name conv [] false
      else if c =? colon then Go (SSpec name conv [] 1 false)
      else Fail
  | SSpec name conv acc count expand =>
      if c =? lbrace then Go (SSpec name conv (c :: acc) (S count) true)
      else if c =? rbrace then
        match count with
        | S (S n) => Go (SSpec name conv (c :: acc) (S n) expand)
        | _ => EmitField name conv (rev acc) expand
        end
      else Go (SSpec name conv (c :: acc) count expand)
  end.

(** After an emitted character or field the scanner is back in literal
    text; a format string that ends anywhere else is refused. *)
Fixpoint scan (st : scan_state) (s : str) : markup :=
  match s with
  | [] => match st with SLiteral => MEnd | _ => MError end
  | c :: s' =>
      match step st c with
      | Go st' => scan st' s'
      | EmitChar x => MChar x (scan SLiteral s')
      | EmitField name conv spec expand =>
          MField name conv spec expand (scan SLiteral s')
      | Fail => MError
      end
  end.

Definition dot : char := 46.

(** A field name is an argument name followed by attribute and index
    accessors, which start at the first [.] or [[]. *)
Fixpoint split_field_name (name : str) : str * str :=
  match name with
  | [] => ([], [])
  | c :: name' =>
      if (c =? dot) || (c =? lbracket) then ([], name)
      else let (first, rest) := split_field_name name' in (c :: first, rest)
  end.

Definition kwargs := list (str * pyval).

Fixpoint lookup (kw : kwargs) (name : str) : option pyval :=
  match kw with
  | [] => None
  | (k, v) :: kw' => if Str.eqb k name then Some v else lookup kw' name
  end.

Section Render.

(** [format_field v rest conv spec]: what the Python runtime makes of the
    value [v] through the accessors [rest], the conversion [conv] and the
    format specification [spec], or [None] when that raises. *)
Variable format_field : pyval -> str -> option char -> str -> option str.

(** A value with no accessor, no conversion and an empty specification is
    written as [str(v)]; so is one converted by [!s].  [None] accepts no
    specification.  Everything else is the runtime's. *)
Definition render_field (v : pyval) (rest : str) (conv : option char)
    (spec : str) : outcome str :=
  match rest, conv, spec, v with
  | [], None, [], _ => Ok (py_str v)
  | [], Some 115, [], _ => Ok (py_str v)
  | [], None, _ :: _, PyNone => Raise FormatError
  | _, _, _, _ =>
      match format_field v rest conv spec with
      | Some s => Ok s
      | None => Raise FormatError
      end
  end.

Section Markup.

Variable kw : kwargs.
(** The expansion of a format specification that itself holds fields. *)
Variable expand_spec : str -> outcome str.

(** One replacement field: the argument is looked up first, then the
    specification is expanded, then the value is rendered.  An empty or
    numeric argument name is looked up by Python among the positional
    arguments, of which the program passes none; its keyword arguments are
    identifiers, so such a name is not found here either. *)
Definition output_markup (field_name : str) (conv : option char)
    (spec : str) (needs_expanding : bool) : outcome str :=
  let (first, rest) := split_field_name field_name in
  match lookup kw first with
  | None => Raise FormatError
  | Some v =>
      spec' <- (if needs_expanding then expand_spec spec else Ok spec) ;;
      render_field v rest conv spec'
  end.

Fixpoint render (m : markup) : outcome str :=
  match m with
  | MEnd => Ok []
  | MError => Raise FormatError
  | MChar c k => r <- render k ;; Ok (c :: r)
  | MField name conv spec needs k =>
      s <- output_markup name conv spec needs ;;
      r <- render k ;;
      Ok (s ++ r)
  end.

End Markup.

(** Specifications may hold fields, and those may not: the recursion
    depth starts at 2 and a string reached at depth 0 is refused. *)
Fixpoint build_string (depth : nat) (kw : kwargs) (s : str) : outcome str :=
  match depth with
  | O => Raise FormatError
  | S d => render kw (build_string d kw) (scan SLiteral s)
  end.

(** [s.format] called with the keyword arguments [kw] *)
Definition format (s : str) (kw : kwargs) : outcome str :=
  build_string 2 kw s.

End Render.

End Fmt.

Import Fmt.

(** ** The program *)

Inductive Language : Type :=
  | CHINESE
  | PORTUGUESE
  | ENGLISH.

(** [os.path.join(a, b)] on POSIX paths *)
Definition os_path_join (a b : str) : str :=
  if startswith (u "/") b then b
  else match a with
       | [] => b
       | _ :: _ => if endswith (u "/") a then a ++ b else a ++ u "/" ++ b
       end.

Definition bytes := list N.

(** What a run of the program gets from outside. *)
Record world : Type := {
  (** [os.path.dirname(__file__)] *)
  script_dir : str;
  (** [open(path, "r", encoding="utf-8").read()] *)
  read_text : str -> outcome str;
  (** [os.listdir(path)] *)
  listdir : str -> outcome (list str);
  (** [requests.get(url, timeout=10)] followed by [raise_for_status()];
      the result is the body of the response *)
  http_get : str -> outcome bytes;
  (** [ET.fromstring]: the root of the tree, or the exception of the
      parser, which is [ParseError] on input that is not well-formed XML
      (other classes come up too, such as [ValueError] or [LookupError] on
      an encoding the parser does not handle) *)
  fromstring : bytes -> outcome element;
  (** [datetime.now().strftime("%Y-%m-%d %H:%M:%S")] *)
  now : str;
  (** the runtime's part of [str.format], see [Fmt.render_field] *)
  format_field : pyval -> str -> option char -> str -> option str
}.

Definition TEMPLATES_DIR (w : world) : str :=
  os_path_join (script_dir w) (u "templates").

Definition DATA_SOURCES (l : Language) : str :=
  match l with
  | CHINESE => u "https://xml.smg.gov.mo/c_forecast.xml"
  | PORTUGUESE => u "https://xml.smg.gov.mo/p_forecast.xml"
  | ENGLISH => u "https://xml.smg.gov.mo/e_forecast.xml"
  end.

Definition LANGUAGE_NAMES (l : Language) : str :=
  match l with
  | CHINESE => u "Chinese (中文)"
  | PORTUGUESE => u "Portuguese (Português)"
  | ENGLISH => u "English"
  end.

Definition DEFAULT_TEMPLATES (l : Language) : str :=
  match l with
  | CHINESE => u "default_template.md"
  | PORTUGUESE => u "default_pt.md"
  | ENGLISH => u "default_en.md"
  end.

(** A template is a dictionary with the keys ["main"] and
    ["forecast_item"]. *)
Record template : Type := {
  main_template : str;
  forecast_item : str
}.

(** What the program prints to standard error, one constructor per [print]
    call; the text of an exception is the runtime's, so only its class is
    kept. *)
Inductive diag : Type :=
  | TemplateFileNotFound (template_path : str)
  | ErrorLoadingTemplate (e : exn)
  | TemplateFallback (template_file : str) (l : Language)
  | Fetching (l : Language) (url : str)
  | Generating (template_file : str)
  | ErrorFetching (e : exn)
  | ErrorParsing (e : exn)
  | UnexpectedError (e : exn)
  | Traceback (e : exn).

Definition FORECAST_ITEM : str := u "<!-- FORECAST_ITEM -->".

(** The body of the [try] of [load_template], once the file is read. *)
Definition split_template (content : str) : outcome template :=
  if contains FORECAST_ITEM content then
    match split FORECAST_ITEM content with
    | [main; item] =>
        Ok {| main_template := strip main; forecast_item := strip item |}
    | _ => Raise ValueError
    end
  else Raise ValueError.

(** [load_template]: the diagnostics printed, and the template or the
    exception that leaves the function. *)
Definition load_template (w : world) (template_file : str)
    : list diag * outcome template :=
  let template_path := os_path_join (TEMPLATES_DIR w) template_file in
  match content <- read_text w template_path ;; split_template content with
  | Ok t => ([], Ok t)
  | Raise FileNotFoundError =>
      ([TemplateFileNotFound template_path], Raise FileNotFoundError)
  | Raise e => ([ErrorLoadingTemplate e], Raise e)
  end.

Definition create_default_template (l : Language) : template :=
  match l with
  | CHINESE =>
      {| main_template := u "
# 澳門天氣預報 Weather Forecast Macau

## 今日天氣情況 Today's Situation
{today_situation}

## 系統資訊 System Information
- **發布機構**: {author}
- **發布時間**: {pubdate}
- **語言**: {language}

## 天氣預報 Weather Forecast

{forecasts}

---
*最後更新 Last Updated: {current_time}*
";
         forecast_item := u "
### {date}
**潮汐 Astronomical Tide**: {tide}

{description}

---
" |}
  | PORTUGUESE =>
      {| main_template := u "
# Previsão Meteorológica de Macau

## Situação Meteorológica de Hoje
{today_situation}

## Informação do Sistema
- **Entidade**: {author}
- **Data de Publicação**: {pubdate}
- **Idioma**: {language}

## Previsão Meteorológica

{forecasts}

---
*Última atualização: {current_time}*
";
         forecast_item := u "
### {date}
**Maré Astronómica**: {tide}

{description}

---
" |}
  | ENGLISH =>
      {| main_template := u "
# Macau Weather Forecast

## Today's Weather Situation
{today_situation}

## System Information
- **Issuing Authority**: {author}
- **Publication Time**: {pubdate}
- **Language**: {language}

## Weather Forecast

{forecasts}

---
*Last Updated: {current_time}*
";
         forecast_item := u "
### {date}
**Astronomical Tide**: {tide}

{description}

---
" |}
  end.

Record forecast : Type := {
  date : pyval;
  description : pyval;
  tide : pyval
}.

Record system_info : Type := {
  author : pyval;
  pubdate : pyval;
  language : pyval
}.

Record weather_data : Type := {
  system : system_info;
  today_situation : pyval;
  forecasts : list forecast
}.

(** [e.text] where [e] is the result of a [find]: on [None] the attribute
    access raises [AttributeError]. *)
Definition text_of (e : option element) : outcome pyval :=
  match e with
  | Some x => Ok (text x)
  | None => Raise AttributeError
  end.

(** [e.text if e is not None else fallback] *)
Definition text_or (e : option element) (fallback : str) : pyval :=
  match e with
  | Some x => text x
  | None => PyStr fallback
  end.

(** The dictionary appended for one [WeatherForecast] element. *)
Definition forecast_of (fc : element) : forecast :=
  let date_element := find_child (u "ValidFor") fc in
  let desc_element := find_child (u "WeatherDescription") fc in
  let tide_element := find_child (u "AstronomicalTide") fc in
  {| date := text_or date_element (u "Unknown");
     description := text_or desc_element (u "No description");
     tide := text_or tide_element (u "NIL") |}.

(** [parse_weather_xml] from the parsed root on. *)
Definition parse_root (root : element) : outcome weather_data :=
  a <- text_of (find_desc (u "SysAuthor") root) ;;
  p <- text_of (find_desc (u "SysPubdate") root) ;;
  l <- text_of (find_desc (u "SysLanguage") root) ;;
  let system_info := {| author := a; pubdate := p; language := l |} in
  let today_situation_element := find_desc (u "TodaySituation") root in
  let today := text_or today_situation_element (u "No data available") in
  Ok {| system := system_info;
        today_situation := today;
        forecasts := map forecast_of (findall_desc (u "WeatherForecast") root) |}.

Definition parse_weather_xml (w : world) (xml_content : bytes)
    : outcome weather_data :=
  match fromstring w xml_content with
  | Raise e => Raise e
  | Ok root => parse_root root
  end.

(** The tide shown for a forecast. *)
Definition tide_display (lang : Language) (f : forecast) : pyval :=
  if py_eq_str (tide f) (u "NIL") then
    match lang with
    | CHINESE => PyStr (u "無資料")
    | PORTUGUESE => PyStr (u "Sem dados")
    | ENGLISH => PyStr (u "No data")
    end
  else tide f.

(** The keyword arguments of the two [format] calls. *)
Definition item_kwargs (lang : Language) (f : forecast) : kwargs :=
  [ (u "date", date f);
    (u "tide", tide_display lang f);
    (u "description", description f) ].

Definition main_kwargs (d : weather_data) (forecasts_text current_time : str)
    : kwargs :=
  [ (u "today_situation", today_situation d);
    (u "author", author (system d));
    (u "pubdate", pubdate (system d));
    (u "language", language (system d));
    (u "forecasts", PyStr forecasts_text);
    (u "current_time", PyStr current_time) ].

(** The loop of [generate_markdown]: [forecasts_text] grows by one
    formatted fragment per forecast. *)
Fixpoint forecasts_loop (w : world) (t : template) (lang : Language)
    (fs : list forecast) (forecasts_text : str) : outcome str :=
  match fs with
  | [] => Ok forecasts_text
  | f :: fs' =>
      frag <- format (format_field w) (forecast_item t) (item_kwargs lang f) ;;
      forecasts_loop w t lang fs' (forecasts_text ++ frag)
  end.

Definition generate_markdown (w : world) (d : weather_data) (t : template)
    (lang : Language) : outcome str :=
  forecasts_text <- forecasts_loop w t lang (forecasts d) [] ;;
  let current_time := now w in
  format (format_field w) (main_template t)
         (main_kwargs d forecasts_text current_time).

Definition list_available_templates (w : world) : outcome (list str) :=
  match listdir w (TEMPLATES_DIR w) with
  | Ok files => Ok (sorted (filter (endswith (u ".md")) files))
  | Raise FileNotFoundError => Ok [u "default_template.md"]
  | Raise e => Raise e
  end.

Definition get_language_from_url (url : str) : Language :=
  if contains (u "c_forecast.xml") url then CHINESE
  else if contains (u "p_forecast.xml") url then PORTUGUESE
  else if contains (u "e_forecast.xml") url then ENGLISH
  else CHINESE.

(** The parsed command line.  [argparse] admits only [zh], [pt] and [en] for
    [--language], which [Language(...)] turns into the three members. *)
Record args : Type := {
  arg_template : option str;
  arg_list_templates : bool;
  arg_url : option str;
  arg_language : option Language
}.

(** [if x:] on an optional string: [None] and the empty string are false. *)
Definition truthy (x : option str) : option str :=
  match x with
  | Some ((_ :: _) as s) => Some s
  | _ => None
  end.

(** "Determine language and URL" *)
Definition choose_source (a : args) : Language * str :=
  match arg_language a with
  | Some lang => (lang, DATA_SOURCES lang)
  | None =>
      match truthy (arg_url a) with
      | Some url => (get_language_from_url url, url)
      | None => (CHINESE, DATA_SOURCES CHINESE)
      end
  end.

(** "Determine template" *)
Definition choose_template (a : args) (lang : Language) : str :=
  match truthy (arg_template a) with
  | Some template_file => template_file
  | None => DEFAULT_TEMPLATES lang
  end.

(** What a run leaves behind: the strings printed to standard output, the
    diagnostics printed to standard error, and the exit status. *)
Record run : Type := {
  stdout : list str;
  stderr : list diag;
  exit_status : N
}.

(** The three [except] clauses of the outer [try]; each ends in
    [sys.exit(1)]. *)
Definition handler (e : exn) : diag :=
  match e with
  | RequestException => ErrorFetching e
  | ParseError => ErrorParsing e
  | _ => UnexpectedError e
  end.

Definition fatal (printed : list diag) (e : exn) : run :=
  {| stdout := []; stderr := printed ++ [handler e]; exit_status := 1 |}.

(** The inner [try]: [FileNotFoundError] and [ValueError] from
    [load_template] are answered by the built-in template of the language. *)
Definition load_or_default (w : world) (template_file : str) (lang : Language)
    : list diag * outcome template :=
  match load_template w template_file with
  | (printed, Raise FileNotFoundError)
  | (printed, Raise ValueError) =>
      (printed ++ [TemplateFallback template_file lang],
       Ok (create_default_template lang))
  | r => r
  end.

(** The outer [try], from the fetch on. *)
Definition fetch_and_render (w : world) (printed : list diag) (t : template)
    (template_file : str) (lang : Language) (url : str) : run :=
  let printed1 := printed ++ [Fetching lang url] in
  match http_get w url with
  | Raise e => fatal printed1 e
  | Ok content =>
      match parse_weather_xml w content with
      | Raise e => fatal printed1 e
      | Ok weather =>
          let printed2 := printed1 ++ [Generating template_file] in
          match generate_markdown w weather t lang with
          | Raise e => fatal printed2 e
          | Ok markdown_output =>
              {| stdout := [markdown_output];
                 stderr := printed2;
                 exit_status := 0 |}
          end
      end
  end.

Definition main (w : world) (a : args) : run :=
  if arg_list_templates a then
    match list_available_templates w with
    | Ok templates =>
        {| stdout := u "Available templates:"
                     :: map (fun t => u "  - " ++ t) templates;
           stderr := [];
           exit_status := 0 |}
    | Raise e => {| stdout := []; stderr := [Traceback e]; exit_status := 1 |}
    end
  else
    let (lang, url) := choose_source a in
    let template_file := choose_template a lang in
    match load_or_default w template_file lang with
    | (printed, Raise e) => fatal printed e
    | (printed, Ok t) => fetch_and_render w printed t template_file lang url
    end.

(** ** Placeholders of a template *)

Module Placeholders.

(** The argument names a markup asks for, with those of the fields inside
    its format specifications, which [inner] lists. *)
Fixpoint names_in (inner : str -> list str) (m : markup) : list str :=
  match m with
  | MEnd | MError => []
  | MChar _ k => names_in inner k
  | MField field_name _ spec needs_expanding k =>
      fst (split_field_name field_name)
      :: (if needs_expanding then inner spec else []) ++ names_in inner k
  end.

(** The placeholder names of a format string, down to the depth that
    [build_string] expands. *)
Fixpoint names_at (depth : nat) (s : str) : list str :=
  match depth with
  | O => []
  | S d => names_in (names_at d) (scan SLiteral s)
  end.

Definition placeholder_names (s : str) : list str := names_at 2 s.

(** A field is plain when it is a bare argument name: no accessor, no
    conversion, no format specification. *)
Definition is_plain (name field_name : str) (conv : option char) (spec : str)
    (needs_expanding : bool) : bool :=
  let (first, rest) := split_field_name field_name in
  Str.eqb first name
  && match rest, conv, spec with [], None, [] => true | _, _, _ => false end
  && negb needs_expanding.

(** The markup holds the plain field [{name}]. *)
Fixpoint plain_field_in (name : str) (m : markup) : bool :=
  match m with
  | MEnd | MError => false
  | MChar _ k => plain_field_in name k
  | MField field_name conv spec needs k =>
      is_plain name field_name conv spec needs || plain_field_in name k
  end.

Definition has_placeholder (name template_text : str) : bool :=
  plain_field_in name (scan SLiteral template_text).

(** The scanner accepts the markup and every field of it is a plain field
    named in [keys]. *)
Fixpoint plain_over (keys : list str) (m : markup) : bool :=
  match m with
  | MEnd => true
  | MError => false
  | MChar _ k => plain_over keys k
  | MField field_name conv spec needs k =>
      existsb (fun key => is_plain key field_name conv spec needs) keys
      && plain_over keys k
  end.

End Placeholders.

Import Placeholders.

Definition MAIN_NAMES : list str :=
  [u "today_situation"; u "author"; u "pubdate"; u "language"; u "forecasts";
   u "current_time"].

Definition ITEM_NAMES : list str := [u "date"; u "tide"; u "description"].

(** [frags] are the fragments of the forecasts [fs], one each, in order. *)
Definition fragments_of (w : world) (t : template) (lang : Language)
    (fs : list forecast) (frags : list str) : Prop :=
  Forall2 (fun f frag =>
             format (format_field w) (forecast_item t) (item_kwargs lang f)
             = Ok frag) fs frags.

(** ** Concrete inputs *)

Module Sample.

(** A world with no template directory and no network, whose runtime
    refuses every format feature it is asked for. *)
Definition offline : world :=
  {| script_dir := u "/opt/weather";
     read_text := fun _ => Raise FileNotFoundError;
     listdir := fun _ => Raise FileNotFoundError;
     http_get := fun _ => Raise RequestException;
     fromstring := fun _ => Raise ParseError;
     now := u "2024-05-01 08:30:00";
     format_field := fun _ _ _ _ => None |}.

Definition leaf (name : string) (content : string) : element :=
  Element (u name) (PyStr (u content)) [].

Definition empty_leaf (name : string) : element :=
  Element (u name) PyNone [].

(** A feed with two forecasts; the second has no tide and an empty
    description. *)
Definition feed : element :=
  Element (u "Forecast") PyNone
    [ Element (u "System") PyNone
        [ leaf "SysAuthor" "SMG"; leaf "SysPubdate" "2024-05-01 08:00";
          leaf "SysLanguage" "E" ];
      Element (u "Custom") PyNone
        [ leaf "TodaySituation" "Fine";
          Element (u "WeatherForecast") PyNone
            [ leaf "ValidFor" "2024-05-02"; leaf "WeatherDescription" "Sunny";
              leaf "AstronomicalTide" "NIL" ];
          Element (u "WeatherForecast") PyNone
            [ leaf "ValidFor" "2024-05-01";
              empty_leaf "WeatherDescription" ] ] ].

(** The same feed without [TodaySituation] and without forecasts. *)
Definition bare_feed : element :=
  Element (u "Forecast") PyNone
    [ Element (u "System") PyNone
        [ leaf "SysAuthor" "SMG"; leaf "SysPubdate" "2024-05-01 08:00";
          leaf "SysLanguage" "E" ] ].

(** A feed with no [SysPubdate]. *)
Definition headless_feed : element :=
  Element (u "Forecast") PyNone
    [ leaf "SysAuthor" "SMG"; leaf "SysLanguage" "E";
      leaf "TodaySituation" "Fine" ].

(** A feed whose [TodaySituation] is present and empty. *)
Definition silent_feed : element :=
  Element (u "Forecast") PyNone
    [ leaf "SysAuthor" "SMG"; leaf "SysPubdate" "2024-05-01 08:00";
      leaf "SysLanguage" "E"; empty_leaf "TodaySituation";
      Element (u "WeatherForecast") PyNone
        [ empty_leaf "ValidFor"; empty_leaf "WeatherDescription";
          empty_leaf "AstronomicalTide" ] ].

Definition bare_data : weather_data :=
  {| system := {| author := PyStr (u "SMG");
                  pubdate := PyStr (u "2024-05-01 08:00");
                  language := PyStr (u "E") |};
     today_situation := PyStr (u "No data available");
     forecasts := [] |}.

Definition one_day : weather_data :=
  {| system := system bare_data;
     today_situation := PyStr (u "Fine");
     forecasts := [ {| date := PyStr (u "2024-05-02");
                       description := PyStr (u "Sunny");
                       tide := PyStr (u "NIL") |} ] |}.

(** A user template whose per-day fragment asks for [{wind}]. *)
Definition windy : template :=
  {| main_template := u "# Macau {forecasts}";
     forecast_item := u "{date}: {wind}" |}.

(** A user template whose outer part asks for [{title}]. *)
Definition titled : template :=
  {| main_template := u "# {title} {forecasts}";
     forecast_item := u "{date}" |}.

Definition mirror : str := u "https://mirror.example.org/feed.xml".

(** [--url https://mirror.example.org/feed.xml --language pt] *)
Definition both_overrides : args :=
  {| arg_template := None;
     arg_list_templates := false;
     arg_url := Some mirror;
     arg_language := Some PORTUGUESE |}.

(** [--url https://mirror.example.org/feed.xml] *)
Definition url_only : args :=
  {| arg_template := None;
     arg_list_templates := false;
     arg_url := Some mirror;
     arg_language := None |}.

(** A world whose network answers every request with bytes that are not
    XML. *)
Definition garbled : world :=
  {| script_dir := u "/opt/weather";
     read_text := fun _ => Raise FileNotFoundError;
     listdir := fun _ => Raise FileNotFoundError;
     http_get := fun _ => Ok [60; 97];
     fromstring := fun _ => Raise ParseError;
     now := u "2024-05-01 08:30:00";
     format_field := fun _ _ _ _ => None |}.

(** A world whose template files all lack the marker. *)
Definition markerless : world :=
  {| script_dir := u "/opt/weather";
     read_text := fun _ => Ok (u "# {forecasts}");
     listdir := fun _ => Raise FileNotFoundError;
     http_get := fun _ => Raise RequestException;
     fromstring := fun _ => Raise ParseError;
     now := u "2024-05-01 08:30:00";
     format_field := fun _ _ _ _ => None |}.

(** A world whose network answers every request with a document that the
    parser reads as [root]. *)
Definition serving (root : element) : world :=
  {| script_dir := u "/opt/weather";
     read_text := fun _ => Raise FileNotFoundError;
     listdir := fun _ => Raise FileNotFoundError;
     http_get := fun _ => Ok [60; 70; 47; 62];
     fromstring := fun _ => Ok root;
     now := u "2024-05-01 08:30:00";
     format_field := fun _ _ _ _ => None |}.

Definition no_flags : args :=
  {| arg_template := None;
     arg_list_templates := false;
     arg_url := None;
     arg_language := None |}.

End Sample.


(** ** Notions used to describe the rest of the program *)

(** [s] neither begins nor ends with a whitespace character. *)
Definition trimmed (s : str) : Prop :=
  (forall c r, s = c :: r -> isspace c = false)
  /\ (forall c r, s = r ++ [c] -> isspace c = false).

(** [s] holds no brace. *)
Definition brace_free (s : str) : Prop :=
  Forall (fun c => c <> lbrace /\ c <> rbrace) s.

(** An element without its children. *)
Definition childless (e : element) : element :=
  Element (tag e) (text e) [].

(** The order of [sorted] on neighbouring entries. *)
Definition in_order (a b : str) : Prop := Str.leb a b = true.

(** The command line with nothing but a language, or nothing but a URL,
    besides the template it names. *)
Definition with_language (a : args) (l : Language) : args :=
  {| arg_template := arg_template a;
     arg_list_templates := arg_list_templates a;
     arg_url := None;
     arg_language := Some l |}.

Definition with_url (a : args) (url : str) : args :=
  {| arg_template := arg_template a;
     arg_list_templates := arg_list_templates a;
     arg_url := Some url;
     arg_language := None |}.

(** The command line without its [--template]. *)
Definition without_template (a : args) : args :=
  {| arg_template := None;
     arg_list_templates := arg_list_templates a;
     arg_url := arg_url a;
     arg_language := arg_language a |}.

Module Sample2.

(** A template file with one marker, and one with two. *)
Definition one_marker : str :=
  u "  # {forecasts}
<!-- FORECAST_ITEM -->
- {date}: {tide}
".

Definition two_markers : str :=
  u "# {forecasts} <!-- FORECAST_ITEM --> {date} <!-- FORECAST_ITEM --> x".

(** A world with the given content in every template file, a template
    directory of four entries, and a network that serves [root]. *)
Definition stocked (content : str) (root : element) : world :=
  {| script_dir := u "/opt/weather";
     read_text := fun _ => Ok content;
     listdir := fun _ => Ok [u "b.md"; u "notes.txt"; u "a.md"; u "B.md"];
     http_get := fun _ => Ok [60; 70; 47; 62];
     fromstring := fun _ => Ok root;
     now := u "2024-05-01 08:30:00";
     format_field := fun _ _ _ _ => None |}.

(** A world whose template files cannot be read for a reason other than
    their absence. *)
Definition locked : world :=
  {| script_dir := u "/opt/weather";
     read_text := fun _ => Raise OtherError;
     listdir := fun _ => Raise OtherError;
     http_get := fun _ => Ok [60; 70; 47; 62];
     fromstring := fun _ => Ok Sample.feed;
     now := u "2024-05-01 08:30:00";
     format_field := fun _ _ _ _ => None |}.

(** A world whose network serves a feed in an encoding that the parser
    refuses with [ValueError]. *)
Definition misencoded : world :=
  {| script_dir := u "/opt/weather";
     read_text := fun _ => Raise FileNotFoundError;
     listdir := fun _ => Raise FileNotFoundError;
     http_get := fun _ => Ok [60; 63];
     fromstring := fun _ => Raise ValueError;
     now := u "2024-05-01 08:30:00";
     format_field := fun _ _ _ _ => None |}.

(** A feed with two elements of each system tag, at different depths. *)
Definition doubled_feed : element :=
  Element (u "Forecast") PyNone
    [ Element (u "System") PyNone
        [ Sample.leaf "SysPubdate" "2024-05-01 08:00";
          Element (u "Group") PyNone [ Sample.leaf "SysAuthor" "SMG" ];
          Sample.leaf "SysLanguage" "E" ];
      Sample.leaf "SysAuthor" "Mirror";
      Sample.leaf "SysLanguage" "C";
      Sample.leaf "SysPubdate" "1999-01-01 00:00" ].

Definition list_flag : args :=
  {| arg_template := Some (u "fancy.md");
     arg_list_templates := true;
     arg_url := Some Sample.mirror;
     arg_language := Some ENGLISH |}.

(** A template file whose per-day part asks for [{wind}]. *)
Definition windy_file : str :=
  u "# {forecasts}<!-- FORECAST_ITEM -->{wind}".

Definition static : template :=
  {| main_template := u "# Macau"; forecast_item := u "- day" |}.

Definition dry_day : forecast :=
  {| date := PyStr (u "2024-05-02"); description := PyStr (u "Sunny");
     tide := PyStr (u "1.2m") |}.

End Sample2.


(** * Properties *)

(** ** Strings *)

Lemma eqb_eq (a b : str) : Str.eqb a b = true <-> a = b.
Proof.
  revert b; induction a as [|x a IH]; intros [|y b]; simpl; split;
    try congruence; try reflexivity.
  - intros H. apply andb_true_iff in H as [Hx Hab].
    apply N.eqb_eq in Hx. apply IH in Hab. congruence.
  - intros H. injection H as -> ->.
    apply andb_true_iff. split; [apply N.eqb_refl | now apply IH].
Qed.

Lemma eqb_refl (a : str) : Str.eqb a a = true.
Proof. now apply eqb_eq. Qed.

Lemma substring_of_app_l (a pre b : str) :
  substring_of a b -> substring_of a (pre ++ b).
Proof.
  intros (l & r & ->). exists (pre ++ l), r. now rewrite app_assoc.
Qed.

Lemma substring_of_prefix (a rest : str) : substring_of a (a ++ rest).
Proof. now exists [], rest. Qed.

(** ** Formatting *)

Lemma format_field_cases ff v rest conv spec :
  render_field ff v rest conv spec = Raise FormatError
  \/ exists s, render_field ff v rest conv spec = Ok s.
Proof.
  unfold render_field.
  repeat match goal with
         | |- context [match ?x with _ => _ end] => destruct x
         end;
    solve [left; reflexivity | right; eexists; reflexivity].
Qed.

Lemma lookup_absent (kw : kwargs) (name : str) :
  ~ In name (map fst kw) -> lookup kw name = None.
Proof.
  induction kw as [|[k v] kw' IH]; simpl; intros Hn; [reflexivity|].
  destruct (Str.eqb k name) eqn:E.
  - apply eqb_eq in E. tauto.
  - apply IH. tauto.
Qed.

Lemma lookup_present (kw : kwargs) (name : str) :
  In name (map fst kw) -> exists v, lookup kw name = Some v.
Proof.
  induction kw as [|[k v] kw' IH]; simpl; intros Hn; [contradiction|].
  destruct (Str.eqb k name) eqn:E; [now exists v|].
  destruct Hn as [->|Hn]; [now rewrite eqb_refl in E | now apply IH].
Qed.

Section FormatFacts.

Variable ff : pyval -> str -> option char -> str -> option str.
Variable kw : kwargs.
Variable ex : str -> outcome str.

Lemma is_plain_spec (name fn : str) (conv : option char) (spec : str)
    (needs : bool) :
  is_plain name fn conv spec needs = true ->
  split_field_name fn = (name, []) /\ conv = None /\ spec = []
  /\ needs = false.
Proof.
  unfold is_plain. destruct (split_field_name fn) as [first rest].
  intros H. apply andb_true_iff in H as [H Hn].
  apply andb_true_iff in H as [Hf Hr]. apply eqb_eq in Hf. subst first.
  destruct rest; [|discriminate]. destruct conv; [discriminate|].
  destruct spec; [|discriminate]. now destruct needs.
Qed.

(** A plain field is written as [str] of its argument. *)
Lemma output_markup_plain (name fn : str) (conv : option char) (spec : str)
    (needs : bool) (v : pyval) :
  is_plain name fn conv spec needs = true ->
  lookup kw name = Some v ->
  output_markup ff kw ex fn conv spec needs = Ok (py_str v).
Proof.
  intros Hp Hv. apply is_plain_spec in Hp as (Hs & -> & -> & ->).
  unfold output_markup. rewrite Hs, Hv. reflexivity.
Qed.

(** A markup of plain fields over the argument names always renders. *)
Lemma render_plain_over (m : markup) :
  plain_over (map fst kw) m = true -> exists out, render ff kw ex m = Ok out.
Proof.
  induction m as [| |c k IH|fn conv spec needs k IH]; simpl; intros H.
  - now exists [].
  - discriminate.
  - destruct (IH H) as [r ->]. now exists (c :: r).
  - apply andb_true_iff in H as [He Hk].
    apply existsb_exists in He as (key & Hin & Hp).
    destruct (lookup_present kw key Hin) as [v Hv].
    rewrite (output_markup_plain _ _ _ _ _ Hp Hv).
    destruct (IH Hk) as [r ->]. now exists (py_str v ++ r).
Qed.

(** Where a markup holds the plain field [{name}], what it renders holds
    [str] of that argument. *)
Lemma render_embeds (name : str) (v : pyval) (m : markup) (out : str) :
  plain_field_in name m = true ->
  lookup kw name = Some v ->
  render ff kw ex m = Ok out ->
  substring_of (py_str v) out.
Proof.
  intros Hp Hv. revert out.
  induction m as [| |c k IH|fn conv spec needs k IH]; simpl in *; intros out;
    try discriminate.
  - destruct (render ff kw ex k) as [r|e]; simpl; [|discriminate].
    intros [= <-]. apply (substring_of_app_l [c]). now apply IH.
  - destruct (output_markup ff kw ex fn conv spec needs) as [s|e] eqn:Eo;
      simpl; [|discriminate].
    destruct (render ff kw ex k) as [r|e]; simpl; [|discriminate].
    intros [= <-].
    destruct (is_plain name fn conv spec needs) eqn:Ep.
    + rewrite (output_markup_plain _ _ _ _ _ Ep Hv) in Eo.
      injection Eo as <-. apply substring_of_prefix.
    + apply substring_of_app_l. now apply IH.
Qed.

(** Rendering raises nothing but [FormatError]. *)
Hypothesis ex_class : forall spec e, ex spec = Raise e -> e = FormatError.

Lemma output_markup_class fn conv spec needs e :
  output_markup ff kw ex fn conv spec needs = Raise e -> e = FormatError.
Proof.
  unfold output_markup. destruct (split_field_name fn) as [first rest].
  destruct (lookup kw first) as [v|]; [|congruence].
  destruct needs; simpl.
  - destruct (ex spec) as [spec'|e'] eqn:Ee; simpl.
    + destruct (format_field_cases ff v rest conv spec') as [-> | [s ->]];
        congruence.
    + intros [= <-]. eapply ex_class; eassumption.
  - destruct (format_field_cases ff v rest conv spec) as [-> | [s ->]];
      congruence.
Qed.

Lemma render_class (m : markup) e :
  render ff kw ex m = Raise e -> e = FormatError.
Proof.
  induction m as [| |c k IH|fn conv spec needs k IH]; simpl;
    try congruence.
  - destruct (render ff kw ex k); simpl; [discriminate|].
    intros [= <-]. now apply IH.
  - destruct (output_markup ff kw ex fn conv spec needs) eqn:Eo; simpl.
    + destruct (render ff kw ex k); simpl; [discriminate|].
      intros [= <-]. now apply IH.
    + intros [= <-]. now apply output_markup_class in Eo.
Qed.

(** A field whose argument is not supplied makes the rendering raise,
    wherever it stands. *)
Lemma render_missing (inner : str -> list str) (name : str) (m : markup) :
  (forall spec, In name (inner spec) -> ex spec = Raise FormatError) ->
  In name (names_in inner m) ->
  lookup kw name = None ->
  render ff kw ex m = Raise FormatError.
Proof.
  intros Hex Hin Hl.
  induction m as [| |c k IH|fn conv spec needs k IH]; simpl in *;
    try contradiction.
  - now rewrite IH.
  - destruct (output_markup ff kw ex fn conv spec needs) as [s|e] eqn:Eo;
      simpl; [|now rewrite (output_markup_class _ _ _ _ Eo)].
    destruct Hin as [Hin|Hin].
    + exfalso. unfold output_markup in Eo.
      destruct (split_field_name fn) as [first rest]. simpl in Hin.
      subst first. rewrite Hl in Eo. discriminate.
    + apply in_app_or in Hin as [Hin|Hin]; [|now rewrite IH].
      exfalso. unfold output_markup in Eo.
      destruct (split_field_name fn) as [first rest].
      destruct (lookup kw first); [|discriminate].
      destruct needs; [|contradiction].
      rewrite (Hex _ Hin) in Eo. discriminate.
Qed.

End FormatFacts.

Lemma build_string_class ff (kw : kwargs) (depth : nat) : forall s e,
  build_string ff depth kw s = Raise e -> e = FormatError.
Proof.
  induction depth as [|d IH]; simpl; intros s e; [congruence|].
  now apply render_class.
Qed.

Lemma build_string_missing ff (kw : kwargs) (name : str) (depth : nat)
    (s : str) :
  In name (names_at depth s) ->
  lookup kw name = None ->
  build_string ff depth kw s = Raise FormatError.
Proof.
  revert s. induction depth as [|d IH]; simpl; intros s Hin Hl;
    [contradiction|].
  apply render_missing with (inner := names_at d) (name := name); auto.
  intros spec e. apply build_string_class.
Qed.

Lemma format_missing ff (kw : kwargs) (name s : str) :
  In name (placeholder_names s) ->
  ~ In name (map fst kw) ->
  format ff s kw = Raise FormatError.
Proof.
  intros Hin Hn. apply build_string_missing with (name := name).
  - exact Hin.
  - apply lookup_absent. exact Hn.
Qed.

Lemma format_plain_over ff (kw : kwargs) (s : str) :
  plain_over (map fst kw) (scan SLiteral s) = true ->
  exists out, format ff s kw = Ok out.
Proof. intros H. now apply render_plain_over. Qed.

Lemma format_embeds ff (kw : kwargs) (name s out : str) (v : pyval) :
  has_placeholder name s = true ->
  lookup kw name = Some v ->
  format ff s kw = Ok out ->
  substring_of (py_str v) out.
Proof. intros Hp Hv Ho. exact (render_embeds _ _ _ _ _ Hp Hv Ho). Qed.

(** ** The built-in templates *)

Lemma default_main_plain (l : Language) :
  plain_over MAIN_NAMES (scan SLiteral (main_template (create_default_template l)))
  = true.
Proof. destruct l; vm_compute; reflexivity. Qed.

Lemma default_item_plain (l : Language) :
  plain_over ITEM_NAMES (scan SLiteral (forecast_item (create_default_template l)))
  = true.
Proof. destruct l; vm_compute; reflexivity. Qed.

Lemma default_main_has (l : Language) (name : str) :
  In name MAIN_NAMES ->
  has_placeholder name (main_template (create_default_template l)) = true.
Proof.
  intros H. repeat (destruct H as [<-|H]; [destruct l; vm_compute; reflexivity|]).
  contradiction.
Qed.

Lemma default_item_has (l : Language) (name : str) :
  In name ITEM_NAMES ->
  has_placeholder name (forecast_item (create_default_template l)) = true.
Proof.
  intros H. repeat (destruct H as [<-|H]; [destruct l; vm_compute; reflexivity|]).
  contradiction.
Qed.

(** ** The loop over the forecasts *)

Lemma forecasts_loop_ok w t lang fs : forall acc out,
  forecasts_loop w t lang fs acc = Ok out ->
  exists frags, fragments_of w t lang fs frags /\ out = acc ++ List.concat frags.
Proof.
  induction fs as [|f fs IH]; simpl; intros acc out H.
  - injection H as <-. exists []. split; [constructor | now rewrite app_nil_r].
  - destruct (format (format_field w) (forecast_item t) (item_kwargs lang f))
      as [frag|e] eqn:Ef; simpl in H; [|discriminate].
    destruct (IH _ _ H) as (frags & Hf & ->).
    exists (frag :: frags). split; [now constructor|].
    simpl. now rewrite app_assoc.
Qed.

Lemma forecasts_loop_complete w t lang fs frags :
  fragments_of w t lang fs frags ->
  forall acc, forecasts_loop w t lang fs acc = Ok (acc ++ List.concat frags).
Proof.
  induction 1 as [|f frag fs frags Hf _ IH]; simpl; intros acc.
  - now rewrite app_nil_r.
  - rewrite Hf. simpl. rewrite IH. now rewrite app_assoc.
Qed.

Lemma forecasts_loop_raises w t lang f fs name : forall acc,
  In name (placeholder_names (forecast_item t)) ->
  ~ In name ITEM_NAMES ->
  forecasts_loop w t lang (f :: fs) acc = Raise FormatError.
Proof.
  intros acc Hin Hn. simpl.
  now rewrite (format_missing (format_field w) (item_kwargs lang f) _ _ Hin Hn).
Qed.

Lemma default_fragments w l lang fs :
  exists frags, fragments_of w (create_default_template l) lang fs frags.
Proof.
  induction fs as [|f fs [frags IH]]; [exists []; constructor|].
  destruct (format_plain_over (format_field w) (item_kwargs lang f)
              (forecast_item (create_default_template l))
              (default_item_plain l)) as [frag Hf].
  exists (frag :: frags). now constructor.
Qed.

Lemma forecasts_loop_class w t lang fs : forall acc e,
  forecasts_loop w t lang fs acc = Raise e -> e = FormatError.
Proof.
  induction fs as [|f fs IH]; simpl; intros acc e; [discriminate|].
  destruct (format (format_field w) (forecast_item t) (item_kwargs lang f))
    as [frag|e'] eqn:Ef; simpl.
  - apply IH.
  - intros [= <-]. exact (build_string_class _ _ _ _ Ef).
Qed.

(** ** Parsing *)

Lemma parse_root_inv (root : element) (d : weather_data) :
  parse_root root = Ok d ->
  exists a p l,
    text_of (find_desc (u "SysAuthor") root) = Ok a
    /\ text_of (find_desc (u "SysPubdate") root) = Ok p
    /\ text_of (find_desc (u "SysLanguage") root) = Ok l
    /\ d = {| system := {| author := a; pubdate := p; language := l |};
              today_situation :=
                text_or (find_desc (u "TodaySituation") root)
                        (u "No data available");
              forecasts :=
                map forecast_of (findall_desc (u "WeatherForecast") root) |}.
Proof.
  unfold parse_root.
  destruct (text_of (find_desc (u "SysAuthor") root)) as [a|]; simpl;
    [|discriminate].
  destruct (text_of (find_desc (u "SysPubdate") root)) as [p|]; simpl;
    [|discriminate].
  destruct (text_of (find_desc (u "SysLanguage") root)) as [l|]; simpl;
    [|discriminate].
  intros [= <-]. now exists a, p, l.
Qed.

Lemma text_of_some (o : option element) :
  o <> None -> exists v, text_of o = Ok v.
Proof. destruct o as [e|]; [now exists (text e) | congruence]. Qed.

(** ** Rendering with a built-in template *)

Lemma generate_markdown_inv w d t lang out :
  generate_markdown w d t lang = Ok out ->
  exists frags,
    fragments_of w t lang (forecasts d) frags
    /\ format (format_field w) (main_template t)
              (main_kwargs d (List.concat frags) (now w)) = Ok out.
Proof.
  unfold generate_markdown.
  destruct (forecasts_loop w t lang (forecasts d) []) as [txt|] eqn:El; simpl;
    [|discriminate].
  intros Hm. apply forecasts_loop_ok in El as (frags & Hf & ->).
  now exists frags.
Qed.

Lemma generate_markdown_default w d l lang :
  exists frags out,
    fragments_of w (create_default_template l) lang (forecasts d) frags
    /\ generate_markdown w d (create_default_template l) lang = Ok out
    /\ format (format_field w) (main_template (create_default_template l))
              (main_kwargs d (List.concat frags) (now w)) = Ok out.
Proof.
  destruct (default_fragments w l lang (forecasts d)) as [frags Hf].
  destruct (format_plain_over (format_field w)
              (main_kwargs d (List.concat frags) (now w))
              (main_template (create_default_template l))
              (default_main_plain l)) as [out Ho].
  exists frags, out. split; [exact Hf|]. split; [|exact Ho].
  unfold generate_markdown.
  rewrite (forecasts_loop_complete Hf []). exact Ho.
Qed.

Lemma main_run w a :
  arg_list_templates a = false ->
  main w a =
    match load_or_default w (choose_template a (fst (choose_source a)))
                          (fst (choose_source a)) with
    | (printed, Raise e) => fatal printed e
    | (printed, Ok t) =>
        fetch_and_render w printed t
          (choose_template a (fst (choose_source a)))
          (fst (choose_source a)) (snd (choose_source a))
    end.
Proof.
  intros H. unfold main. rewrite H. now destruct (choose_source a).
Qed.

Lemma fetch_and_render_fatal w printed t file lang url :
  exit_status (fetch_and_render w printed t file lang url) <> 0 ->
  stdout (fetch_and_render w printed t file lang url) = [].
Proof.
  unfold fetch_and_render.
  destruct (http_get w url); [|reflexivity].
  destruct (parse_weather_xml w a); [|reflexivity].
  destruct (generate_markdown w a0 t lang); [|reflexivity].
  simpl. congruence.
Qed.

(** ** Fragments within the output *)

Lemma substring_of_trans (a b c : str) :
  substring_of a b -> substring_of b c -> substring_of a c.
Proof.
  intros (l & r & ->) (l' & r' & ->). exists (l' ++ l), (r ++ r').
  now rewrite <- !app_assoc.
Qed.

Lemma substring_of_concat (x : str) (xs : list str) :
  In x xs -> substring_of x (List.concat xs).
Proof.
  intros H. apply in_split in H as (l & r & ->).
  exists (List.concat l), (List.concat r).
  now rewrite concat_app.
Qed.

Lemma fragments_of_In (w : world) (t : template) (lang : Language)
    (fs : list forecast) (frags : list str) (f : forecast) :
  fragments_of w t lang fs frags ->
  In f fs ->
  exists frag,
    In frag frags
    /\ format (format_field w) (forecast_item t) (item_kwargs lang f)
       = Ok frag.
Proof.
  induction 1 as [|g frag fs frags Hg _ IH]; intros Hin; [destruct Hin|].
  destruct Hin as [->|Hin].
  - exists frag. split; [now left | exact Hg].
  - destruct (IH Hin) as (frag' & Hf & Hfmt).
    exists frag'. split; [now right | exact Hfmt].
Qed.

(** * The claims *)

(** C1. A document parsed from a feed with N [WeatherForecast] elements is
    rendered with exactly N per-day fragments: fragment i is the per-day
    template formatted with the i-th [WeatherForecast] of the feed in
    document order, the fragments are concatenated in that order without
    any sorting, and the concatenation is what [generate_markdown]
    substitutes for [{forecasts}], so that it stands in the output of every
    template that holds this placeholder.  With each of the three built-in
    templates the rendering succeeds and has this form. *)
Theorem C1_fragments_in_source_order (w : world) (xml : bytes)
    (root : element) (d : weather_data) (lang : Language) :
  fromstring w xml = Ok root ->
  parse_weather_xml w xml = Ok d ->
  let blocks := findall_desc (u "WeatherForecast") root in
  (forall t out,
      generate_markdown w d t lang = Ok out ->
      exists frags,
        fragments_of w t lang (map forecast_of blocks) frags
        /\ List.length frags = List.length blocks
        /\ format (format_field w) (main_template t)
                  (main_kwargs d (List.concat frags) (now w)) = Ok out
        /\ (has_placeholder (u "forecasts") (main_template t) = true ->
            substring_of (List.concat frags) out))
  /\ (forall l,
        exists frags out,
          generate_markdown w d (create_default_template l) lang = Ok out
          /\ fragments_of w (create_default_template l) lang
                          (map forecast_of blocks) frags
          /\ List.length frags = List.length blocks
          /\ substring_of (List.concat frags) out).
Proof.
  intros Hx Hp blocks. unfold parse_weather_xml in Hp. rewrite Hx in Hp.
  apply parse_root_inv in Hp as (a & p & l0 & _ & _ & _ & Hd).
  assert (Hfs : forecasts d = map forecast_of blocks) by now subst d.
  assert (Hlen : forall t frags,
             fragments_of w t lang (map forecast_of blocks) frags ->
             List.length frags = List.length blocks).
  { intros t frags Hf. apply Forall2_length in Hf.
    now rewrite length_map in Hf. }
  assert (Hsub : forall t frags out,
             format (format_field w) (main_template t)
                    (main_kwargs d (List.concat frags) (now w)) = Ok out ->
             has_placeholder (u "forecasts") (main_template t) = true ->
             substring_of (List.concat frags) out).
  { intros t frags out Ho Hh.
    refine (@format_embeds _ _ _ _ _ (PyStr (List.concat frags)) Hh _ Ho).
    reflexivity. }
  split.
  - intros t out Hg. apply generate_markdown_inv in Hg as (frags & Hf & Ho).
    rewrite Hfs in Hf. exists frags. repeat split; eauto.
  - intros l. destruct (generate_markdown_default w d l lang)
      as (frags & out & Hf & Hg & Ho).
    rewrite Hfs in Hf. exists frags, out. repeat split; eauto.
    apply (Hsub _ _ _ Ho). apply default_main_has. simpl. tauto.
Qed.

Lemma C1_witness :
  exists frags out,
    generate_markdown (Sample.serving Sample.feed)
      {| system := {| author := PyStr (u "SMG");
                      pubdate := PyStr (u "2024-05-01 08:00");
                      language := PyStr (u "E") |};
         today_situation := PyStr (u "Fine");
         forecasts := map forecast_of
                          (findall_desc (u "WeatherForecast") Sample.feed) |}
      (create_default_template ENGLISH) ENGLISH = Ok out
    /\ List.length frags = 2%nat
    /\ substring_of (List.concat frags) out.
Proof.
  destruct (C1_fragments_in_source_order (Sample.serving Sample.feed) []
              (root := Sample.feed) ENGLISH eq_refl eq_refl) as [_ H].
  destruct (H ENGLISH) as (frags & out & Hg & _ & Hl & Hs).
  exists frags, out. repeat split; assumption.
Defined.

(** C2. For every forecast of the document, [generate_markdown] shows the
    tide as it is, unless it is the string [NIL]: then what is shown is the
    fallback of the language, [無資料], [Sem dados] or [No data].  What is
    shown is the argument [tide] of the forecast's fragment; the fragment
    holds it verbatim whenever the per-day template has [{tide}], and the
    output holds the fragment whenever the outer template has
    [{forecasts}].  With each built-in template the rendering succeeds and
    its output holds, for every forecast, the tide so shown. *)
Theorem C2_tide_display (w : world) (d : weather_data) (lang : Language)
    (f : forecast) :
  In f (forecasts d) ->
  (tide f = PyStr (u "NIL") ->
   tide_display lang f =
     PyStr match lang with
           | CHINESE => u "無資料"
           | PORTUGUESE => u "Sem dados"
           | ENGLISH => u "No data"
           end)
  /\ (tide f <> PyStr (u "NIL") -> tide_display lang f = tide f)
  /\ lookup (item_kwargs lang f) (u "tide") = Some (tide_display lang f)
  /\ (forall t out,
        has_placeholder (u "tide") (forecast_item t) = true ->
        has_placeholder (u "forecasts") (main_template t) = true ->
        generate_markdown w d t lang = Ok out ->
        exists frag,
          format (format_field w) (forecast_item t) (item_kwargs lang f)
          = Ok frag
          /\ substring_of (py_str (tide_display lang f)) frag
          /\ substring_of frag out
          /\ substring_of (py_str (tide_display lang f)) out)
  /\ (forall l,
        exists out frag,
          generate_markdown w d (create_default_template l) lang = Ok out
          /\ format (format_field w)
                    (forecast_item (create_default_template l))
                    (item_kwargs lang f) = Ok frag
          /\ substring_of (py_str (tide_display lang f)) frag
          /\ substring_of frag out
          /\ substring_of (py_str (tide_display lang f)) out).
Proof.
  intros Hin.
  assert (Hk : lookup (item_kwargs lang f) (u "tide")
               = Some (tide_display lang f)) by reflexivity.
  assert (Hany : forall t out,
             has_placeholder (u "tide") (forecast_item t) = true ->
             has_placeholder (u "forecasts") (main_template t) = true ->
             generate_markdown w d t lang = Ok out ->
             exists frag,
               format (format_field w) (forecast_item t) (item_kwargs lang f)
               = Ok frag
               /\ substring_of (py_str (tide_display lang f)) frag
               /\ substring_of frag out
               /\ substring_of (py_str (tide_display lang f)) out).
  { intros t out Ht Hf Hg.
    apply generate_markdown_inv in Hg as (frags & Hfr & Ho).
    destruct (@fragments_of_In _ _ _ _ _ f Hfr Hin) as (frag & Hfrag & Hfmt).
    assert (H1 : substring_of (py_str (tide_display lang f)) frag)
      by exact (@format_embeds _ _ _ _ _ _ Ht Hk Hfmt).
    assert (H2 : substring_of frag out).
    { apply substring_of_trans with (b := List.concat frags).
      - now apply substring_of_concat.
      - refine (@format_embeds _ _ _ _ _ (PyStr (List.concat frags))
                  Hf _ Ho). reflexivity. }
    exists frag. repeat split; try assumption.
    now apply substring_of_trans with (b := frag). }
  split; [|split; [|split; [exact Hk | split; [exact Hany|]]]].
  - intros Ht. unfold tide_display. rewrite Ht. now destruct lang.
  - intros Ht. unfold tide_display.
    destruct (tide f) as [s|]; simpl; [|reflexivity].
    destruct (Str.eqb s (u "NIL")) eqn:E; [|reflexivity].
    apply eqb_eq in E. congruence.
  - intros l.
    destruct (generate_markdown_default w d l lang)
      as (frags & out & _ & Hg & _).
    destruct (Hany (create_default_template l) out) as (frag & H);
      [apply default_item_has; simpl; tauto
      |apply default_main_has; simpl; tauto
      |exact Hg|].
    exists out, frag. split; [exact Hg | exact H].
Qed.

Lemma C2_witness :
  exists out,
    generate_markdown Sample.offline Sample.one_day
      (create_default_template PORTUGUESE) PORTUGUESE = Ok out
    /\ substring_of
         (py_str
            (tide_display PORTUGUESE
               {| date := PyStr (u "2024-05-02");
                  description := PyStr (u "Sunny");
                  tide := PyStr (u "NIL") |})) out
    /\ tide_display PORTUGUESE
         {| date := PyStr (u "2024-05-02"); description := PyStr (u "Sunny");
            tide := PyStr (u "NIL") |} = PyStr (u "Sem dados").
Proof.
  destruct (@C2_tide_display Sample.offline Sample.one_day PORTUGUESE
              {| date := PyStr (u "2024-05-02");
                 description := PyStr (u "Sunny");
                 tide := PyStr (u "NIL") |})
    as (Hnil & _ & _ & _ & Hdef).
  - left. reflexivity.
  - destruct (Hdef PORTUGUESE) as (out & frag & Hg & _ & _ & _ & Hs).
    exists out. split; [exact Hg|]. split; [exact Hs|].
    apply Hnil. reflexivity.
Defined.

(** C8. With the built-in template of each of the three languages the
    rendering of any document succeeds, and the output holds the document's
    [author], [pubdate] and [language] as they are, character for character
    ([py_str] of a string is that string; a field that is [None] shows as
    the text [None]). *)
Theorem C8_system_fields_verbatim (w : world) (d : weather_data)
    (l lang : Language) :
  exists out,
    generate_markdown w d (create_default_template l) lang = Ok out
    /\ substring_of (py_str (author (system d))) out
    /\ substring_of (py_str (pubdate (system d))) out
    /\ substring_of (py_str (language (system d))) out
    /\ (forall a p g,
          system d = {| author := PyStr a; pubdate := PyStr p;
                        language := PyStr g |} ->
          substring_of a out /\ substring_of p out /\ substring_of g out).
Proof.
  destruct (generate_markdown_default w d l lang)
    as (frags & out & _ & Hg & Ho).
  exists out. split; [exact Hg|].
  assert (Ha : substring_of (py_str (author (system d))) out).
  { refine (@format_embeds _ _ _ _ _ (author (system d))
              (@default_main_has l (u "author") _) _ Ho);
      [simpl; tauto | reflexivity]. }
  assert (Hp : substring_of (py_str (pubdate (system d))) out).
  { refine (@format_embeds _ _ _ _ _ (pubdate (system d))
              (@default_main_has l (u "pubdate") _) _ Ho);
      [simpl; tauto | reflexivity]. }
  assert (Hl : substring_of (py_str (language (system d))) out).
  { refine (@format_embeds _ _ _ _ _ (language (system d))
              (@default_main_has l (u "language") _) _ Ho);
      [simpl; tauto | reflexivity]. }
  repeat split; auto; rewrite H in *; assumption.
Qed.

Lemma C8_witness :
  exists out,
    generate_markdown Sample.offline Sample.one_day
      (create_default_template CHINESE) CHINESE = Ok out
    /\ substring_of (u "SMG") out
    /\ substring_of (u "2024-05-01 08:00") out
    /\ substring_of (u "E") out.
Proof.
  destruct (C8_system_fields_verbatim Sample.offline Sample.one_day
              CHINESE CHINESE) as (out & Hg & _ & _ & _ & H).
  exists out. split; [exact Hg|]. exact (H _ _ _ eq_refl).
Defined.

(** C3, as the claim has it, fails: this well-formed input has no
    [TodaySituation], and [parse_weather_xml] raises on it, since it has
    no system metadata either. *)
Lemma C3_counterexample :
  fromstring (Sample.serving (Element (u "Forecast") PyNone [])) []
  = Ok (Element (u "Forecast") PyNone [])
  /\ find_desc (u "TodaySituation") (Element (u "Forecast") PyNone []) = None
  /\ parse_weather_xml (Sample.serving (Element (u "Forecast") PyNone [])) []
     = Raise AttributeError.
Proof. split; [reflexivity|]. split; reflexivity. Qed.

(** C3, amended.  On a well-formed input whose system metadata is there,
    [parse_weather_xml] returns a document, whichever optional elements are
    missing; and in the document it returns, a missing [TodaySituation] is
    the text [No data available], and for each [WeatherForecast] a missing
    [ValidFor] is [Unknown], a missing [WeatherDescription] is
    [No description] and a missing [AstronomicalTide] is [NIL]. *)
Theorem C3_missing_optional_fallbacks (w : world) (xml : bytes)
    (root : element) :
  fromstring w xml = Ok root ->
  (find_desc (u "SysAuthor") root <> None ->
   find_desc (u "SysPubdate") root <> None ->
   find_desc (u "SysLanguage") root <> None ->
   exists d, parse_weather_xml w xml = Ok d)
  /\ (forall d,
        parse_weather_xml w xml = Ok d ->
        (find_desc (u "TodaySituation") root = None ->
         today_situation d = PyStr (u "No data available"))
        /\ forecasts d
           = map forecast_of (findall_desc (u "WeatherForecast") root)
        /\ (forall fc,
              (find_child (u "ValidFor") fc = None ->
               date (forecast_of fc) = PyStr (u "Unknown"))
              /\ (find_child (u "WeatherDescription") fc = None ->
                  description (forecast_of fc) = PyStr (u "No description"))
              /\ (find_child (u "AstronomicalTide") fc = None ->
                  tide (forecast_of fc) = PyStr (u "NIL")))).
Proof.
  intros Hx. unfold parse_weather_xml. rewrite Hx. split.
  - intros Ha Hp Hl. unfold parse_root.
    destruct (text_of_some Ha) as [a ->].
    destruct (text_of_some Hp) as [p ->].
    destruct (text_of_some Hl) as [l ->].
    simpl. eexists. reflexivity.
  - intros d Hd. apply parse_root_inv in Hd as (a & p & l & _ & _ & _ & ->).
    simpl. split; [now intros ->|]. split; [reflexivity|].
    intros fc. unfold forecast_of. simpl.
    repeat split; now intros ->.
Qed.

Lemma C3_witness :
  parse_weather_xml (Sample.serving Sample.bare_feed) [] = Ok Sample.bare_data
  /\ date (forecast_of (Element (u "WeatherForecast") PyNone []))
     = PyStr (u "Unknown").
Proof.
  destruct (C3_missing_optional_fallbacks (Sample.serving Sample.bare_feed)
              [] (root := Sample.bare_feed) eq_refl) as [Hok Hfb].
  split.
  - reflexivity.
  - destruct (Hok ltac:(vm_compute; discriminate)
                  ltac:(vm_compute; discriminate)
                  ltac:(vm_compute; discriminate)) as [d Hd].
    destruct (Hfb d Hd) as (_ & _ & Hfc).
    apply (Hfc (Element (u "WeatherForecast") PyNone [])). reflexivity.
Defined.

(** C9. On a well-formed input that lacks [SysAuthor], [SysPubdate] or
    [SysLanguage], [parse_weather_xml] raises ([AttributeError], from
    reading the text of a missing element): no fallback stands in for
    system metadata. *)
Theorem C9_missing_system_metadata_raises (w : world) (xml : bytes)
    (root : element) :
  fromstring w xml = Ok root ->
  find_desc (u "SysAuthor") root = None
  \/ find_desc (u "SysPubdate") root = None
  \/ find_desc (u "SysLanguage") root = None ->
  parse_weather_xml w xml = Raise AttributeError.
Proof.
  intros Hx H. unfold parse_weather_xml, parse_root. rewrite Hx.
  destruct (find_desc (u "SysAuthor") root) as [a|]; [|reflexivity].
  destruct (find_desc (u "SysPubdate") root) as [p|]; [|reflexivity].
  destruct (find_desc (u "SysLanguage") root) as [l|]; [|reflexivity].
  destruct H as [H|[H|H]]; discriminate.
Qed.

Lemma C9_witness :
  parse_weather_xml (Sample.serving Sample.headless_feed) []
  = Raise AttributeError.
Proof.
  apply (C9_missing_system_metadata_raises
           (Sample.serving Sample.headless_feed) []
           (root := Sample.headless_feed) eq_refl).
  right. left. reflexivity.
Defined.

(** C10. An optional element that is present and has no text gives [None],
    not its fallback: [parse_weather_xml] stores the text of the element
    found, and only the absence of the element brings the fallback in. *)
Theorem C10_empty_optional_is_None (w : world) (xml : bytes) (root : element)
    (d : weather_data) :
  fromstring w xml = Ok root ->
  parse_weather_xml w xml = Ok d ->
  (forall e,
      find_desc (u "TodaySituation") root = Some e -> text e = PyNone ->
      today_situation d = PyNone
      /\ today_situation d <> PyStr (u "No data available"))
  /\ forecasts d = map forecast_of (findall_desc (u "WeatherForecast") root)
  /\ (forall fc e,
        (find_child (u "ValidFor") fc = Some e -> text e = PyNone ->
         date (forecast_of fc) = PyNone
         /\ date (forecast_of fc) <> PyStr (u "Unknown"))
        /\ (find_child (u "WeatherDescription") fc = Some e ->
            text e = PyNone ->
            description (forecast_of fc) = PyNone
            /\ description (forecast_of fc) <> PyStr (u "No description"))
        /\ (find_child (u "AstronomicalTide") fc = Some e ->
            text e = PyNone ->
            tide (forecast_of fc) = PyNone
            /\ tide (forecast_of fc) <> PyStr (u "NIL"))).
Proof.
  intros Hx Hd. unfold parse_weather_xml in Hd. rewrite Hx in Hd.
  apply parse_root_inv in Hd as (a & p & l & _ & _ & _ & ->). simpl.
  split; [|split; [reflexivity|]].
  - intros e -> He. simpl. rewrite He. split; [reflexivity | discriminate].
  - intros fc e. unfold forecast_of. simpl.
    split; [|split]; intros -> He; simpl; rewrite He;
      (split; [reflexivity | discriminate]).
Qed.

Lemma C10_witness :
  forecasts
    {| system := system Sample.bare_data;
       today_situation := PyNone;
       forecasts :=
         [ {| date := PyNone; description := PyNone; tide := PyNone |} ] |}
  = map forecast_of (findall_desc (u "WeatherForecast") Sample.silent_feed)
  /\ parse_weather_xml (Sample.serving Sample.silent_feed) []
     = Ok {| system := system Sample.bare_data;
             today_situation := PyNone;
             forecasts :=
               [ {| date := PyNone; description := PyNone;
                    tide := PyNone |} ] |}.
Proof.
  split; [|reflexivity].
  apply (C10_empty_optional_is_None (Sample.serving Sample.silent_feed) []
           (root := Sample.silent_feed) eq_refl eq_refl).
Defined.

(** C4. On an input that is not well-formed XML [parse_weather_xml] raises
    [ParseError].  A run that fetches such an input ends with exit status 1
    and has printed nothing to standard output; where the template was
    loaded or replaced, its last diagnostic is the parse error.  No run
    that ends with a non-zero status has printed to standard output. *)
Theorem C4_malformed_xml_is_fatal (w : world) :
  (forall xml,
      fromstring w xml = Raise ParseError ->
      parse_weather_xml w xml = Raise ParseError)
  /\ (forall a content,
        arg_list_templates a = false ->
        http_get w (snd (choose_source a)) = Ok content ->
        fromstring w content = Raise ParseError ->
        stdout (main w a) = []
        /\ exit_status (main w a) = 1
        /\ (forall printed t,
              load_or_default w (choose_template a (fst (choose_source a)))
                              (fst (choose_source a)) = (printed, Ok t) ->
              stderr (main w a)
              = printed
                ++ [Fetching (fst (choose_source a)) (snd (choose_source a));
                    ErrorParsing ParseError]))
  /\ (forall a, exit_status (main w a) <> 0 -> stdout (main w a) = []).
Proof.
  split; [|split].
  - intros xml H. unfold parse_weather_xml. now rewrite H.
  - intros a content Hl Hg Hx. rewrite (main_run w a Hl).
    destruct (load_or_default w (choose_template a (fst (choose_source a)))
                (fst (choose_source a))) as [printed [t|e]].
    + unfold fetch_and_render, parse_weather_xml. rewrite Hg, Hx. simpl.
      repeat split. intros printed' t' [= <- <-].
      now rewrite <- app_assoc.
    + simpl. repeat split. discriminate.
  - intros a. unfold main. destruct (arg_list_templates a).
    + destruct (list_available_templates w); simpl; congruence.
    + destruct (choose_source a) as [lang url].
      destruct (load_or_default w (choose_template a lang) lang)
        as [printed [t|e]]; [|reflexivity].
      apply fetch_and_render_fatal.
Qed.

Lemma C4_witness :
  stdout (main Sample.garbled Sample.no_flags) = []
  /\ exit_status (main Sample.garbled Sample.no_flags) = 1.
Proof.
  destruct (C4_malformed_xml_is_fatal Sample.garbled) as (_ & H & _).
  destruct (H Sample.no_flags [60; 97] eq_refl eq_refl eq_refl)
    as (Ho & He & _).
  split; assumption.
Defined.

(** C5. When the template file is absent, or its content lacks the marker
    [<!-- FORECAST_ITEM -->], [load_template] raises [FileNotFoundError] or
    [ValueError]; [main] answers with a warning, takes the built-in template
    of the active language and goes on to fetch and render with it. *)
Theorem C5_template_fallback (w : world) (a : args) :
  let lang := fst (choose_source a) in
  let url := snd (choose_source a) in
  let template_file := choose_template a lang in
  let template_path := os_path_join (TEMPLATES_DIR w) template_file in
  arg_list_templates a = false ->
  read_text w template_path = Raise FileNotFoundError
  \/ (exists content,
         read_text w template_path = Ok content
         /\ contains FORECAST_ITEM content = false) ->
  exists printed e,
    load_template w template_file = (printed, Raise e)
    /\ (e = FileNotFoundError \/ e = ValueError)
    /\ load_or_default w template_file lang
       = (printed ++ [TemplateFallback template_file lang],
          Ok (create_default_template lang))
    /\ main w a
       = fetch_and_render w (printed ++ [TemplateFallback template_file lang])
           (create_default_template lang) template_file lang url.
Proof.
  intros lang url template_file template_path Hl Hr.
  assert (Hload : exists printed e,
             load_template w template_file = (printed, Raise e)
             /\ (e = FileNotFoundError \/ e = ValueError)).
  { unfold load_template. fold template_path.
    destruct Hr as [-> | (content & -> & Hc)]; simpl.
    - exists [TemplateFileNotFound template_path], FileNotFoundError. auto.
    - unfold split_template. rewrite Hc.
      exists [ErrorLoadingTemplate ValueError], ValueError. auto. }
  destruct Hload as (printed & e & Hload & He).
  exists printed, e. split; [exact Hload|]. split; [exact He|].
  assert (Hd : load_or_default w template_file lang
               = (printed ++ [TemplateFallback template_file lang],
                  Ok (create_default_template lang))).
  { unfold load_or_default. rewrite Hload. now destruct He as [-> | ->]. }
  split; [exact Hd|].
  rewrite (main_run w a Hl). fold lang. fold template_file. now rewrite Hd.
Qed.

Lemma C5_witness :
  exists printed e,
    load_template Sample.markerless
      (choose_template Sample.no_flags (fst (choose_source Sample.no_flags)))
    = (printed, Raise e)
    /\ (e = FileNotFoundError \/ e = ValueError)
    /\ load_or_default Sample.markerless
         (choose_template Sample.no_flags (fst (choose_source Sample.no_flags)))
         (fst (choose_source Sample.no_flags))
       = (printed
          ++ [TemplateFallback
                (choose_template Sample.no_flags
                   (fst (choose_source Sample.no_flags)))
                (fst (choose_source Sample.no_flags))],
          Ok (create_default_template (fst (choose_source Sample.no_flags))))
    /\ main Sample.markerless Sample.no_flags
       = fetch_and_render Sample.markerless
           (printed
            ++ [TemplateFallback
                  (choose_template Sample.no_flags
                     (fst (choose_source Sample.no_flags)))
                  (fst (choose_source Sample.no_flags))])
           (create_default_template (fst (choose_source Sample.no_flags)))
           (choose_template Sample.no_flags
              (fst (choose_source Sample.no_flags)))
           (fst (choose_source Sample.no_flags))
           (snd (choose_source Sample.no_flags)).
Proof.
  apply (C5_template_fallback Sample.markerless Sample.no_flags eq_refl).
  right. exists (u "# {forecasts}"). split; reflexivity.
Defined.

(** C6, as the claim has it, fails: with both overrides the fetch does not
    use the URL that was supplied. *)
Lemma C6_counterexample :
  arg_url Sample.both_overrides = Some Sample.mirror
  /\ arg_language Sample.both_overrides = Some PORTUGUESE
  /\ choose_source Sample.both_overrides
     = (PORTUGUESE, u "https://xml.smg.gov.mo/p_forecast.xml")
  /\ snd (choose_source Sample.both_overrides) <> Sample.mirror
  /\ stderr (main Sample.offline Sample.both_overrides)
     = [ TemplateFileNotFound (u "/opt/weather/templates/default_pt.md");
         TemplateFallback (u "default_pt.md") PORTUGUESE;
         Fetching PORTUGUESE (u "https://xml.smg.gov.mo/p_forecast.xml");
         ErrorFetching RequestException ].
Proof.
  split; [reflexivity|]. split; [reflexivity|]. split; [reflexivity|].
  split; [|reflexivity].
  vm_compute. discriminate.
Qed.

(** C6, amended.  A language override sets the active language and the
    fetch then uses the data source of that language, whatever URL
    override there is; a non-empty URL override without a language override
    is the URL fetched, and the language is then detected from it.  The run
    fetches from the URL so chosen. *)
Theorem C6_source_selection (a : args) :
  (forall l, arg_language a = Some l -> choose_source a = (l, DATA_SOURCES l))
  /\ (forall url,
        arg_language a = None -> arg_url a = Some url -> url <> [] ->
        choose_source a = (get_language_from_url url, url))
  /\ (forall w printed t,
        arg_list_templates a = false ->
        load_or_default w (choose_template a (fst (choose_source a)))
                        (fst (choose_source a)) = (printed, Ok t) ->
        main w a
        = match http_get w (snd (choose_source a)) with
          | Raise e =>
              fatal (printed ++ [Fetching (fst (choose_source a))
                                          (snd (choose_source a))]) e
          | Ok _ =>
              fetch_and_render w printed t
                (choose_template a (fst (choose_source a)))
                (fst (choose_source a)) (snd (choose_source a))
          end).
Proof.
  split; [|split].
  - intros l H. unfold choose_source. now rewrite H.
  - intros url Hl Hu Hn. unfold choose_source. rewrite Hl, Hu.
    destruct url; [congruence | reflexivity].
  - intros w printed t Hl Hd. rewrite (main_run w a Hl), Hd.
    unfold fetch_and_render.
    now destruct (http_get w (snd (choose_source a))).
Qed.

Lemma C6_witness :
  choose_source Sample.both_overrides
  = (PORTUGUESE, DATA_SOURCES PORTUGUESE)
  /\ choose_source Sample.url_only
     = (get_language_from_url Sample.mirror, Sample.mirror).
Proof.
  split.
  - destruct (C6_source_selection Sample.both_overrides) as (H & _ & _).
    apply H. reflexivity.
  - destruct (C6_source_selection Sample.url_only) as (_ & H & _).
    apply H; [reflexivity | reflexivity | vm_compute; discriminate].
Defined.

(** C7, as the claim has it, fails: the per-day fragment of this template
    asks for [{wind}], and the document, which has no forecast, is rendered
    all the same. *)
Lemma C7_counterexample :
  In (u "wind") (placeholder_names (forecast_item Sample.windy))
  /\ ~ In (u "wind") ITEM_NAMES
  /\ generate_markdown Sample.offline Sample.bare_data Sample.windy ENGLISH
     = Ok (u "# Macau ").
Proof.
  split; [|split].
  - vm_compute. auto.
  - vm_compute. intros H. repeat (destruct H as [H|H]; [discriminate|]).
    exact H.
  - reflexivity.
Qed.

(** C7, amended.  A placeholder of the outer template whose name is not one
    of [today_situation], [author], [pubdate], [language], [forecasts],
    [current_time] makes [generate_markdown] raise a formatting error; so
    does a placeholder of the per-day fragment whose name is not one of
    [date], [tide], [description], when the document has at least one
    forecast. *)
Theorem C7_unknown_placeholder_raises (w : world) (d : weather_data)
    (t : template) (lang : Language) (name : str) :
  (In name (placeholder_names (main_template t)) ->
   ~ In name MAIN_NAMES ->
   generate_markdown w d t lang = Raise FormatError)
  /\ (In name (placeholder_names (forecast_item t)) ->
      ~ In name ITEM_NAMES ->
      forecasts d <> [] ->
      generate_markdown w d t lang = Raise FormatError).
Proof.
  unfold generate_markdown. split.
  - intros Hin Hn.
    destruct (forecasts_loop w t lang (forecasts d) []) as [txt|e] eqn:El;
      simpl.
    + now apply format_missing with (name := name).
    + now rewrite (forecasts_loop_class _ _ _ _ _ El).
  - intros Hin Hn Hne. destruct (forecasts d) as [|f fs]; [congruence|].
    now rewrite (forecasts_loop_raises w t lang f fs [] Hin Hn).
Qed.

Lemma C7_witness :
  generate_markdown Sample.offline Sample.one_day Sample.titled ENGLISH
  = Raise FormatError
  /\ generate_markdown Sample.offline Sample.one_day Sample.windy ENGLISH
     = Raise FormatError.
Proof.
  split.
  - destruct (C7_unknown_placeholder_raises Sample.offline Sample.one_day
                Sample.titled ENGLISH (u "title")) as [H _].
    apply H.
    + vm_compute. auto.
    + vm_compute. intros K.
      repeat (destruct K as [K|K]; [discriminate|]). exact K.
  - destruct (C7_unknown_placeholder_raises Sample.offline Sample.one_day
                Sample.windy ENGLISH (u "wind")) as [_ H].
    apply H.
    + vm_compute. auto.
    + vm_compute. intros K.
      repeat (destruct K as [K|K]; [discriminate|]). exact K.
    + vm_compute. discriminate.
Defined.


(** * Further properties of the program *)

(** ** Splitting and trimming *)

Lemma startswith_app (p r : str) : startswith p (p ++ r) = true.
Proof.
  induction p as [|x p IH]; simpl; [reflexivity|].
  now rewrite N.eqb_refl, IH.
Qed.

(** A match of [p] that runs into a character [p] does not hold ends before
    that character. *)
Lemma startswith_straddle (c : char) (p : str) : forall x r,
  ~ In c p -> startswith p (x ++ c :: r) = true -> startswith p x = true.
Proof.
  induction p as [|h p IH]; intros x r Hn H; [reflexivity|].
  destruct x as [|y x]; simpl in *.
  - apply andb_true_iff in H as [H _]. apply N.eqb_eq in H. subst. tauto.
  - apply andb_true_iff in H as [Hy H]. rewrite Hy. simpl.
    apply (IH x r); tauto.
Qed.

Lemma contains_unfold (p s : str) :
  contains p s
  = startswith p s
    || match s with [] => false | _ :: s' => contains p s' end.
Proof. destruct s; reflexivity. Qed.

Lemma contains_app (p a b : str) : contains p (a ++ p ++ b) = true.
Proof.
  induction a as [|c a IH]; simpl.
  - rewrite contains_unfold, startswith_app. reflexivity.
  - rewrite IH. apply orb_true_r.
Qed.

Lemma contains_false_cons (p : str) (c : char) (s : str) :
  contains p (c :: s) = false ->
  startswith p (c :: s) = false /\ contains p s = false.
Proof. simpl. intros H. now apply orb_false_iff in H. Qed.

Lemma split_from_skip (sep x : str) : forall acc r,
  split_from sep (List.length x) acc (x ++ r) = split_from sep O acc r.
Proof.
  induction x as [|c x IH]; intros acc r; simpl; [|apply IH].
  destruct r; reflexivity.
Qed.

Lemma split_from_none (sep : str) : forall s acc,
  contains sep s = false -> split_from sep O acc s = [rev acc ++ s].
Proof.
  induction s as [|c s IH]; intros acc H.
  - simpl. now rewrite app_nil_r.
  - apply contains_false_cons in H as [Hs Hc].
    cbn [split_from]. rewrite Hs, (IH (c :: acc) Hc). simpl.
    now rewrite <- app_assoc.
Qed.

Lemma split_from_nonempty (sep : str) : forall s skip acc,
  split_from sep skip acc s <> [].
Proof.
  induction s as [|c s IH]; intros skip acc; simpl; [discriminate|].
  destruct skip; [|apply IH].
  destruct (startswith sep (c :: s)); [discriminate | apply IH].
Qed.

(** A separator whose first character does not come back in it is found
    where it first stands. *)
Lemma split_from_first (h : char) (t : str) (b : str) : forall a acc,
  ~ In h t ->
  contains (h :: t) a = false ->
  split_from (h :: t) O acc (a ++ h :: t ++ b)
  = (rev acc ++ a) :: split_from (h :: t) O [] b.
Proof.
  induction a as [|c a IH]; intros acc Hn Ha.
  - rewrite app_nil_r. cbn [app split_from].
    change (startswith (h :: t) (h :: t ++ b))
      with (startswith (h :: t) ((h :: t) ++ b)).
    rewrite startswith_app. cbn [List.length pred].
    now rewrite split_from_skip.
  - apply contains_false_cons in Ha as [Hs Hc].
    assert (Hno : startswith (h :: t) (c :: a ++ h :: t ++ b) = false).
    { destruct (startswith (h :: t) (c :: a ++ h :: t ++ b)) eqn:E;
        [|reflexivity].
      simpl in E. apply andb_true_iff in E as [E1 E2].
      apply (startswith_straddle h t a (t ++ b) Hn) in E2.
      simpl in Hs. rewrite E1, E2 in Hs. discriminate. }
    cbn [app split_from]. rewrite Hno.
    rewrite (IH (c :: acc) Hn Hc). simpl. now rewrite <- app_assoc.
Qed.

Lemma marker_head :
  exists t, FORECAST_ITEM = 60 :: t /\ ~ In 60 t.
Proof.
  eexists. split; [vm_compute; reflexivity|].
  vm_compute. intros H. repeat (destruct H as [H|H]; [discriminate|]).
  exact H.
Qed.

Lemma split_marker_once (a b : str) :
  contains FORECAST_ITEM a = false ->
  contains FORECAST_ITEM b = false ->
  split FORECAST_ITEM (a ++ FORECAST_ITEM ++ b) = [a; b].
Proof.
  destruct marker_head as (t & -> & Hn). intros Ha Hb. unfold split.
  refine (eq_trans (@split_from_first 60 t b a [] Hn Ha) _). simpl.
  f_equal. exact (@split_from_none (60 :: t) b [] Hb).
Qed.

Lemma split_marker_twice (a b c : str) :
  contains FORECAST_ITEM a = false ->
  contains FORECAST_ITEM b = false ->
  exists x rest,
    split FORECAST_ITEM (a ++ FORECAST_ITEM ++ b ++ FORECAST_ITEM ++ c)
    = a :: b :: x :: rest.
Proof.
  destruct marker_head as (t & -> & Hn). intros Ha Hb. unfold split.
  destruct (split_from (60 :: t) 0 [] c) as [|x rest] eqn:E;
    [now apply split_from_nonempty in E|].
  exists x, rest.
  refine (eq_trans
            (@split_from_first 60 t (b ++ 60 :: t ++ c) a [] Hn Ha) _).
  simpl. f_equal.
  refine (eq_trans (@split_from_first 60 t c b [] Hn Hb) _).
  simpl. f_equal. exact E.
Qed.

Lemma lstrip_head : forall s c r, lstrip s = c :: r -> isspace c = false.
Proof.
  induction s as [|x s IH]; intros c r; simpl; [discriminate|].
  destruct (isspace x) eqn:E; [apply IH|].
  now intros [= <- _].
Qed.

(** What [lstrip] removes is a run of whitespace at the front. *)
Lemma lstrip_prefix : forall s,
  exists p, s = p ++ lstrip s /\ Forall (fun c => isspace c = true) p.
Proof.
  induction s as [|x s (p & Hp & Hall)]; simpl.
  - now exists [].
  - destruct (isspace x) eqn:E.
    + exists (x :: p). split; [simpl; congruence | now constructor].
    + now exists [].
Qed.

Lemma strip_trimmed (s : str) : trimmed (strip s).
Proof.
  unfold trimmed, strip, rstrip. split; intros c r H.
  - destruct (lstrip_prefix (rev (lstrip s))) as (p & Hp & Hall).
    apply (f_equal (@rev char)) in H. rewrite rev_involutive in H.
    rewrite H in Hp. apply (f_equal (@rev char)) in Hp.
    rewrite rev_involutive, rev_app_distr, rev_involutive in Hp.
    simpl in Hp. now apply lstrip_head in Hp.
  - apply (f_equal (@rev char)) in H.
    rewrite rev_involutive, rev_app_distr in H. simpl in H.
    now apply lstrip_head in H.
Qed.

Lemma split_template_inv (content : str) (t : template) :
  split_template content = Ok t ->
  exists m i,
    split FORECAST_ITEM content = [m; i]
    /\ t = {| main_template := strip m; forecast_item := strip i |}.
Proof.
  unfold split_template.
  destruct (contains FORECAST_ITEM content); [|discriminate].
  destruct (split FORECAST_ITEM content) as [|m [|i [|x rest]]];
    try discriminate.
  intros [= <-]. now exists m, i.
Qed.

Lemma load_template_inv (w : world) (template_file : str)
    (printed : list diag) (t : template) :
  load_template w template_file = (printed, Ok t) ->
  printed = []
  /\ exists content,
       read_text w (os_path_join (TEMPLATES_DIR w) template_file) = Ok content
       /\ split_template content = Ok t.
Proof.
  unfold load_template.
  destruct (read_text w (os_path_join (TEMPLATES_DIR w) template_file))
    as [content|e]; simpl.
  - destruct (split_template content) as [t'|e] eqn:E.
    + intros [= <- <-]. split; [reflexivity|]. now exists content.
    + destruct e; discriminate.
  - destruct e; discriminate.
Qed.

(** X1. A template file whose content is an outer part, the marker and a
    per-day part, with the marker in neither part, loads without any
    diagnostic into the two parts, each stripped of surrounding
    whitespace. *)
Theorem X1_load_template_splits (w : world)
    (template_file main_text item_text : str) :
  read_text w (os_path_join (TEMPLATES_DIR w) template_file)
  = Ok (main_text ++ FORECAST_ITEM ++ item_text) ->
  contains FORECAST_ITEM main_text = false ->
  contains FORECAST_ITEM item_text = false ->
  load_template w template_file
  = ([], Ok {| main_template := strip main_text;
               forecast_item := strip item_text |}).
Proof.
  intros Hr Hm Hi. unfold load_template. rewrite Hr.
  assert (Hs : split_template (main_text ++ FORECAST_ITEM ++ item_text)
               = Ok {| main_template := strip main_text;
                       forecast_item := strip item_text |}).
  { unfold split_template.
    rewrite (contains_app FORECAST_ITEM main_text item_text).
    now rewrite (@split_marker_once main_text item_text Hm Hi). }
  unfold bind. now rewrite Hs.
Qed.

Lemma X1_witness :
  load_template
    (Sample2.stocked (u "# {forecasts} " ++ FORECAST_ITEM ++ u " - {date}")
                     Sample.feed)
    (u "mine.md")
  = ([], Ok {| main_template := strip (u "# {forecasts} ");
               forecast_item := strip (u " - {date}") |}).
Proof.
  apply (X1_load_template_splits
           (Sample2.stocked
              (u "# {forecasts} " ++ FORECAST_ITEM ++ u " - {date}")
              Sample.feed)
           (u "mine.md") (u "# {forecasts} ") (u " - {date}"));
    reflexivity.
Defined.

(** X2. A template file that holds the marker twice does not load: the
    split gives more than two parts, [load_template] reports the error and
    raises [ValueError], and [main] goes on with the built-in template as
    for a file without marker. *)
Theorem X2_two_markers_fall_back (w : world) (template_file a b c : str)
    (lang : Language) :
  read_text w (os_path_join (TEMPLATES_DIR w) template_file)
  = Ok (a ++ FORECAST_ITEM ++ b ++ FORECAST_ITEM ++ c) ->
  contains FORECAST_ITEM a = false ->
  contains FORECAST_ITEM b = false ->
  load_template w template_file
  = ([ErrorLoadingTemplate ValueError], Raise ValueError)
  /\ load_or_default w template_file lang
     = ([ErrorLoadingTemplate ValueError;
         TemplateFallback template_file lang],
        Ok (create_default_template lang)).
Proof.
  intros Hr Ha Hb.
  assert (Hl : load_template w template_file
               = ([ErrorLoadingTemplate ValueError], Raise ValueError)).
  { unfold load_template. rewrite Hr.
    assert (Hs : split_template
                   (a ++ FORECAST_ITEM ++ b ++ FORECAST_ITEM ++ c)
                 = Raise ValueError).
    { unfold split_template.
      rewrite (contains_app FORECAST_ITEM a (b ++ FORECAST_ITEM ++ c)).
      destruct (@split_marker_twice a b c Ha Hb) as (x & rest & ->).
      reflexivity. }
    unfold bind. now rewrite Hs. }
  split; [exact Hl|]. unfold load_or_default. now rewrite Hl.
Qed.

Lemma X2_witness :
  load_template
    (Sample2.stocked
       (u "# {forecasts} " ++ FORECAST_ITEM ++ u " {date} " ++ FORECAST_ITEM
        ++ u " x")
       Sample.feed)
    (u "mine.md")
  = ([ErrorLoadingTemplate ValueError], Raise ValueError).
Proof.
  apply (X2_two_markers_fall_back
           (Sample2.stocked
              (u "# {forecasts} " ++ FORECAST_ITEM ++ u " {date} "
               ++ FORECAST_ITEM ++ u " x")
              Sample.feed)
           (u "mine.md") (u "# {forecasts} ") (u " {date} ") (u " x")
           CHINESE); reflexivity.
Defined.

(** X3. Whatever [load_template] returns has been stripped: neither part
    of a loaded template begins or ends with a whitespace character, and a
    successful load prints nothing. *)
Theorem X3_loaded_template_trimmed (w : world) (template_file : str)
    (printed : list diag) (t : template) :
  load_template w template_file = (printed, Ok t) ->
  printed = [] /\ trimmed (main_template t) /\ trimmed (forecast_item t).
Proof.
  intros H. apply load_template_inv in H as (-> & content & _ & Hs).
  apply split_template_inv in Hs as (m & i & _ & ->). simpl.
  repeat split; try apply strip_trimmed.
Qed.

Lemma X3_witness :
  trimmed (strip (u "# {forecasts} ")) /\ trimmed (strip (u " - {date}")).
Proof.
  apply (X3_loaded_template_trimmed
           (Sample2.stocked
              (u "# {forecasts} " ++ FORECAST_ITEM ++ u " - {date}")
              Sample.feed)
           (u "mine.md") (printed := [])
           (t := {| main_template := strip (u "# {forecasts} ");
                    forecast_item := strip (u " - {date}") |})).
  reflexivity.
Defined.

(** ** Listing the templates *)

Lemma leb_total : forall a b, Str.leb a b = false -> Str.leb b a = true.
Proof.
  induction a as [|x a IH]; intros [|y b]; simpl; try congruence.
  intros H. apply orb_false_iff in H as [Hlt Hrest].
  apply N.ltb_ge in Hlt.
  destruct (N.eqb_spec x y) as [->|Hne].
  - rewrite N.eqb_refl. simpl in *. rewrite (IH b Hrest).
    apply orb_true_r.
  - assert (Hyx : (y <? x) = true) by (apply N.ltb_lt; lia).
    now rewrite Hyx.
Qed.

Lemma insert_sorted_HdRel (x y : str) (l : list str) :
  HdRel in_order y l -> in_order y x -> HdRel in_order y (insert_sorted x l).
Proof.
  intros Hl Hx. destruct l as [|z l]; simpl; [now constructor|].
  destruct (Str.leb x z); constructor; [exact Hx|].
  now inversion Hl.
Qed.

Lemma insert_sorted_Sorted (x : str) (l : list str) :
  Sorted in_order l -> Sorted in_order (insert_sorted x l).
Proof.
  induction 1 as [|y l Hs IH Hh]; simpl; [repeat constructor|].
  destruct (Str.leb x y) eqn:E.
  - constructor; [now constructor | now constructor].
  - constructor; [exact IH|].
    apply insert_sorted_HdRel; [exact Hh | now apply leb_total].
Qed.

Lemma insert_sorted_perm (x : str) (l : list str) :
  Permutation (insert_sorted x l) (x :: l).
Proof.
  induction l as [|y l IH]; simpl; [reflexivity|].
  destruct (Str.leb x y); [reflexivity|].
  rewrite IH. apply perm_swap.
Qed.

Lemma sorted_perm (l : list str) : Permutation (sorted l) l.
Proof.
  induction l as [|x l IH]; simpl; [constructor|].
  rewrite insert_sorted_perm. now constructor.
Qed.

Lemma sorted_Sorted (l : list str) : Sorted in_order (sorted l).
Proof.
  induction l as [|x l IH]; simpl; [constructor|].
  now apply insert_sorted_Sorted.
Qed.

(** X4. The templates listed are the entries of the template directory
    whose name ends in [.md], each as often as the directory has it and
    none else, in ascending order of their names; a template directory that
    does not exist gives the single name [default_template.md], and any
    other failure of the listing leaves the function as it is. *)
Theorem X4_listed_templates (w : world) :
  (forall files,
      listdir w (TEMPLATES_DIR w) = Ok files ->
      exists templates,
        list_available_templates w = Ok templates
        /\ Permutation templates (filter (endswith (u ".md")) files)
        /\ (forall f,
              In f templates <-> In f files /\ endswith (u ".md") f = true)
        /\ Sorted in_order templates)
  /\ (listdir w (TEMPLATES_DIR w) = Raise FileNotFoundError ->
      list_available_templates w = Ok [u "default_template.md"])
  /\ (forall e,
        listdir w (TEMPLATES_DIR w) = Raise e -> e <> FileNotFoundError ->
        list_available_templates w = Raise e).
Proof.
  unfold list_available_templates. split; [|split].
  - intros files ->. eexists. split; [reflexivity|]. split; [|split].
    + apply sorted_perm.
    + intros f. rewrite <- filter_In. split; apply Permutation_in;
        [|symmetry]; apply sorted_perm.
    + apply sorted_Sorted.
  - now intros ->.
  - intros e -> He. now destruct e.
Qed.

Lemma X4_witness :
  list_available_templates (Sample2.stocked [] Sample.feed)
  = Ok [u "B.md"; u "a.md"; u "b.md"]
  /\ list_available_templates Sample.offline = Ok [u "default_template.md"].
Proof.
  destruct (X4_listed_templates Sample.offline) as (_ & H & _).
  split; [reflexivity | exact (H eq_refl)].
Defined.

(** X5. With [--list-templates] the run is the listing and nothing else:
    it depends on the directory listing alone, whatever the other flags,
    the template files, the network and the parser are. *)
Theorem X5_list_mode_reads_the_directory_only (w w' : world) (a a' : args) :
  arg_list_templates a = true ->
  arg_list_templates a' = true ->
  listdir w (TEMPLATES_DIR w) = listdir w' (TEMPLATES_DIR w') ->
  main w a = main w' a'.
Proof.
  intros Ha Ha' Hl. unfold main, list_available_templates.
  now rewrite Ha, Ha', Hl.
Qed.

Lemma X5_witness :
  main Sample.offline Sample2.list_flag
  = main Sample.garbled
      {| arg_template := None; arg_list_templates := true; arg_url := None;
         arg_language := None |}.
Proof.
  apply (X5_list_mode_reads_the_directory_only Sample.offline Sample.garbled
           Sample2.list_flag
           {| arg_template := None; arg_list_templates := true;
              arg_url := None; arg_language := None |});
    reflexivity.
Defined.

(** ** Choosing the source *)

Lemma main_same_choice (w : world) (a a' : args) :
  arg_list_templates a = arg_list_templates a' ->
  arg_template a = arg_template a' ->
  choose_source a = choose_source a' ->
  main w a = main w a'.
Proof.
  intros Hl Ht Hc. unfold main, choose_template. now rewrite Hl, Ht, Hc.
Qed.

Lemma DATA_SOURCES_cons (l : Language) :
  exists c r, DATA_SOURCES l = c :: r.
Proof. destruct l; eexists; eexists; vm_compute; reflexivity. Qed.

(** X6. Giving the data source URL of a language with [--url] is the same
    run as giving that language with [--language]: the language detected
    from each of the three URLs is the language it belongs to. *)
Theorem X6_standard_url_selects_its_language (w : world) (a : args)
    (l : Language) :
  get_language_from_url (DATA_SOURCES l) = l
  /\ main w (with_url a (DATA_SOURCES l)) = main w (with_language a l).
Proof.
  assert (H : get_language_from_url (DATA_SOURCES l) = l)
    by (destruct l; vm_compute; reflexivity).
  split; [exact H|]. apply main_same_choice; try reflexivity.
  unfold choose_source, with_url, with_language. cbn [arg_language arg_url].
  destruct (DATA_SOURCES_cons l) as (c & r & E). rewrite E in *.
  cbn [truthy]. now rewrite H.
Qed.

(** X7. Without [--language], and with no [--url] or an empty one, the run
    is the run for Chinese. *)
Theorem X7_default_is_chinese (w : world) (a : args) :
  arg_language a = None ->
  arg_url a = None \/ arg_url a = Some [] ->
  choose_source a = (CHINESE, DATA_SOURCES CHINESE)
  /\ main w a = main w (with_language a CHINESE).
Proof.
  intros Hl Hu.
  assert (H : choose_source a = (CHINESE, DATA_SOURCES CHINESE)).
  { unfold choose_source. rewrite Hl. now destruct Hu as [-> | ->]. }
  split; [exact H|]. apply main_same_choice; try reflexivity.
  now rewrite H.
Qed.

Lemma X7_witness :
  main Sample.offline
    {| arg_template := None; arg_list_templates := false;
       arg_url := Some []; arg_language := None |}
  = main Sample.offline
      (with_language
         {| arg_template := None; arg_list_templates := false;
            arg_url := Some []; arg_language := None |} CHINESE).
Proof.
  apply (X7_default_is_chinese Sample.offline
           {| arg_template := None; arg_list_templates := false;
              arg_url := Some []; arg_language := None |}).
  - reflexivity.
  - right. reflexivity.
Defined.

(** ** The run *)

Lemma fatal_run (printed : list diag) (e : exn) :
  stdout (fatal printed e) = [] /\ exit_status (fatal printed e) = 1.
Proof. split; reflexivity. Qed.

(** X8. A run that renders and ends with status 0 has printed one string,
    the markdown: the template was loaded or replaced by the built-in one,
    the fetch and the parse succeeded, and what is printed is the rendering
    of the parsed document with that template; the diagnostics end with the
    two progress messages. *)
Theorem X8_success_prints_the_rendering (w : world) (a : args) :
  let lang := fst (choose_source a) in
  let url := snd (choose_source a) in
  let template_file := choose_template a lang in
  arg_list_templates a = false ->
  exit_status (main w a) = 0 ->
  exists printed t content d md,
    load_or_default w template_file lang = (printed, Ok t)
    /\ http_get w url = Ok content
    /\ parse_weather_xml w content = Ok d
    /\ generate_markdown w d t lang = Ok md
    /\ stdout (main w a) = [md]
    /\ stderr (main w a)
       = printed ++ [Fetching lang url; Generating template_file].
Proof.
  intros lang url template_file Hl. rewrite (main_run w a Hl).
  fold lang. fold url. fold template_file.
  destruct (load_or_default w template_file lang) as [printed [t|e]];
    [|discriminate].
  unfold fetch_and_render.
  destruct (http_get w url) as [content|e] eqn:Eg; [|discriminate].
  destruct (parse_weather_xml w content) as [d|e] eqn:Ep; [|discriminate].
  destruct (generate_markdown w d t lang) as [md|e] eqn:Em; [|discriminate].
  intros _. exists printed, t, content, d, md. simpl.
  split; [reflexivity|]. split; [reflexivity|]. split; [exact Ep|].
  split; [exact Em|]. split; [reflexivity|]. now rewrite <- app_assoc.
Qed.

Lemma X8_witness :
  exists md, stdout (main (Sample.serving Sample.feed) Sample.no_flags) = [md].
Proof.
  destruct (X8_success_prints_the_rendering (Sample.serving Sample.feed)
              Sample.no_flags eq_refl)
    as (printed & t & content & d & md & _ & _ & _ & _ & Ho & _).
  - vm_compute. reflexivity.
  - now exists md.
Defined.

(** X9. With no template file at hand the program still does its work: if
    the fetch succeeds and the feed has its three system elements, the run
    ends with status 0 and prints the rendering of the feed with the
    built-in template of the active language, after a warning. *)
Theorem X9_runs_without_template_file (w : world) (a : args)
    (content : bytes) (root : element) :
  let lang := fst (choose_source a) in
  let url := snd (choose_source a) in
  let template_file := choose_template a lang in
  let template_path := os_path_join (TEMPLATES_DIR w) template_file in
  arg_list_templates a = false ->
  read_text w template_path = Raise FileNotFoundError ->
  http_get w url = Ok content ->
  fromstring w content = Ok root ->
  find_desc (u "SysAuthor") root <> None ->
  find_desc (u "SysPubdate") root <> None ->
  find_desc (u "SysLanguage") root <> None ->
  exists d md,
    parse_weather_xml w content = Ok d
    /\ generate_markdown w d (create_default_template lang) lang = Ok md
    /\ main w a
       = {| stdout := [md];
            stderr := [TemplateFileNotFound template_path;
                       TemplateFallback template_file lang;
                       Fetching lang url;
                       Generating template_file];
            exit_status := 0 |}.
Proof.
  intros lang url template_file template_path Hl Hr Hg Hx Ha Hp Hs.
  assert (Hd : exists d, parse_weather_xml w content = Ok d).
  { unfold parse_weather_xml, parse_root. rewrite Hx.
    destruct (text_of_some Ha) as [x ->].
    destruct (text_of_some Hp) as [y ->].
    destruct (text_of_some Hs) as [z ->]. simpl. eexists. reflexivity. }
  destruct Hd as [d Hd].
  destruct (generate_markdown_default w d lang lang)
    as (frags & md & _ & Hm & _).
  exists d, md. split; [exact Hd|]. split; [exact Hm|].
  rewrite (main_run w a Hl). fold lang. fold url. fold template_file.
  unfold load_or_default, load_template. fold template_path. rewrite Hr.
  simpl. unfold fetch_and_render. now rewrite Hg, Hd, Hm.
Qed.

Lemma X9_witness :
  exists md,
    stdout (main (Sample.serving Sample.feed) Sample.no_flags) = [md]
    /\ exit_status (main (Sample.serving Sample.feed) Sample.no_flags) = 0.
Proof.
  destruct (X9_runs_without_template_file (Sample.serving Sample.feed)
              Sample.no_flags (content := [60; 70; 47; 62])
              (root := Sample.feed) eq_refl eq_refl eq_refl eq_refl)
    as (d & md & _ & _ & Hm).
  - vm_compute. discriminate.
  - vm_compute. discriminate.
  - vm_compute. discriminate.
  - exists md. rewrite Hm. split; reflexivity.
Defined.

(** X10. A fetch that fails is fatal: the run ends with status 1 and
    nothing on standard output, and after the message that announces the
    fetch its last diagnostic is the one of the exception, a fetch error
    for a [RequestException]. *)
Theorem X10_fetch_failure_is_fatal (w : world) (a : args) (e : exn) :
  let lang := fst (choose_source a) in
  let url := snd (choose_source a) in
  let template_file := choose_template a lang in
  arg_list_templates a = false ->
  http_get w url = Raise e ->
  stdout (main w a) = []
  /\ exit_status (main w a) = 1
  /\ (forall printed t,
        load_or_default w template_file lang = (printed, Ok t) ->
        stderr (main w a) = printed ++ [Fetching lang url; handler e])
  /\ (e = RequestException -> handler e = ErrorFetching RequestException).
Proof.
  intros lang url template_file Hl Hg. rewrite (main_run w a Hl).
  fold lang. fold url. fold template_file.
  destruct (load_or_default w template_file lang) as [printed [t|e']].
  - unfold fetch_and_render. rewrite Hg. simpl. repeat split.
    + intros printed' t' [= <- <-]. now rewrite <- app_assoc.
    + now intros ->.
  - simpl. repeat split; [discriminate | now intros ->].
Qed.

Lemma X10_witness :
  stdout (main Sample.offline Sample.no_flags) = []
  /\ exit_status (main Sample.offline Sample.no_flags) = 1.
Proof.
  destruct (X10_fetch_failure_is_fatal Sample.offline Sample.no_flags
              (e := RequestException) eq_refl eq_refl) as (Ho & He & _).
  split; assumption.
Defined.

(** X11. Only a missing file and a [ValueError] bring the built-in template
    in.  A template file that cannot be read for another reason ends the
    run at once: status 1, nothing on standard output, the error reported
    by [load_template] and by [main], and no fetch announced. *)
Theorem X11_other_template_error_is_fatal (w : world) (a : args) (e : exn) :
  let lang := fst (choose_source a) in
  let template_file := choose_template a lang in
  let template_path := os_path_join (TEMPLATES_DIR w) template_file in
  arg_list_templates a = false ->
  read_text w template_path = Raise e ->
  e <> FileNotFoundError ->
  e <> ValueError ->
  main w a
  = {| stdout := [];
       stderr := [ErrorLoadingTemplate e; handler e];
       exit_status := 1 |}.
Proof.
  intros lang template_file template_path Hl Hr Hf Hv.
  rewrite (main_run w a Hl). fold lang. fold template_file.
  unfold load_or_default, load_template. fold template_path. rewrite Hr.
  now destruct e.
Qed.

Lemma X11_witness :
  main Sample2.locked Sample.no_flags
  = {| stdout := [];
       stderr := [ErrorLoadingTemplate OtherError; handler OtherError];
       exit_status := 1 |}.
Proof.
  apply (X11_other_template_error_is_fatal Sample2.locked Sample.no_flags
           (e := OtherError) eq_refl eq_refl); discriminate.
Defined.

(** ** Rendering *)

Lemma tide_display_raw (lang : Language) (f : forecast) :
  tide f <> PyStr (u "NIL") -> tide_display lang f = tide f.
Proof.
  intros Ht. unfold tide_display.
  destruct (tide f) as [s|]; simpl; [|reflexivity].
  destruct (Str.eqb s (u "NIL")) eqn:E; [|reflexivity].
  apply eqb_eq in E. congruence.
Qed.

Lemma forecasts_loop_languages (w : world) (t : template)
    (lang lang' : Language) : forall fs acc,
  (forall f, In f fs -> tide f <> PyStr (u "NIL")) ->
  forecasts_loop w t lang fs acc = forecasts_loop w t lang' fs acc.
Proof.
  induction fs as [|f fs IH]; intros acc H; simpl; [reflexivity|].
  unfold item_kwargs.
  rewrite (tide_display_raw lang f), (tide_display_raw lang' f)
    by (apply H; now left).
  destruct (format (format_field w) (forecast_item t) _); simpl;
    [|reflexivity].
  apply IH. intros g Hg. apply H. now right.
Qed.

(** X12. The language passed to [generate_markdown] matters for the tide
    fallback only: for a document none of whose forecasts has the tide
    [NIL], the rendering is the same in every language. *)
Theorem X12_language_matters_for_NIL_only (w : world) (d : weather_data)
    (t : template) (lang lang' : Language) :
  (forall f, In f (forecasts d) -> tide f <> PyStr (u "NIL")) ->
  generate_markdown w d t lang = generate_markdown w d t lang'.
Proof.
  intros H. unfold generate_markdown.
  now rewrite (forecasts_loop_languages w t lang lang' (forecasts d) [] H).
Qed.

Lemma X12_witness :
  generate_markdown Sample.offline
    {| system := system Sample.bare_data;
       today_situation := PyStr (u "Fine");
       forecasts := [Sample2.dry_day] |}
    (create_default_template ENGLISH) ENGLISH
  = generate_markdown Sample.offline
      {| system := system Sample.bare_data;
         today_situation := PyStr (u "Fine");
         forecasts := [Sample2.dry_day] |}
      (create_default_template ENGLISH) CHINESE.
Proof.
  apply (X12_language_matters_for_NIL_only Sample.offline
           {| system := system Sample.bare_data;
              today_situation := PyStr (u "Fine");
              forecasts := [Sample2.dry_day] |}
           (create_default_template ENGLISH) ENGLISH CHINESE).
  intros f [<-|[]]. vm_compute. discriminate.
Defined.

(** X13. For a document without forecasts neither the per-day fragment nor
    the language plays a part: the rendering is the outer template
    formatted with an empty [forecasts]. *)
Theorem X13_no_forecast_no_fragment (w : world) (d : weather_data)
    (t t' : template) (lang lang' : Language) :
  forecasts d = [] ->
  main_template t = main_template t' ->
  generate_markdown w d t lang
  = format (format_field w) (main_template t) (main_kwargs d [] (now w))
  /\ generate_markdown w d t lang = generate_markdown w d t' lang'.
Proof.
  intros Hf Hm. unfold generate_markdown. rewrite Hf, Hm. now split.
Qed.

Lemma X13_witness :
  generate_markdown Sample.offline Sample.bare_data Sample.windy ENGLISH
  = generate_markdown Sample.offline Sample.bare_data
      {| main_template := main_template Sample.windy;
         forecast_item := u "{date}" |} PORTUGUESE.
Proof.
  destruct (X13_no_forecast_no_fragment Sample.offline Sample.bare_data
              Sample.windy
              {| main_template := main_template Sample.windy;
                 forecast_item := u "{date}" |} ENGLISH PORTUGUESE
              eq_refl eq_refl) as [_ H].
  exact H.
Defined.

(** X14. The sentinel never reaches a template: whatever the forecast and
    the language, the value passed for [tide] is not the string [NIL]. *)
Theorem X14_tide_argument_is_never_NIL (lang : Language) (f : forecast) :
  tide_display lang f <> PyStr (u "NIL")
  /\ lookup (item_kwargs lang f) (u "tide") <> Some (PyStr (u "NIL")).
Proof.
  assert (H : tide_display lang f <> PyStr (u "NIL")).
  { unfold tide_display.
    destruct (py_eq_str (tide f) (u "NIL")) eqn:E.
    - destruct lang; vm_compute; discriminate.
    - intros Ht. rewrite Ht in E. unfold py_eq_str in E.
      now rewrite eqb_refl in E. }
  split; [exact H|].
  change (lookup (item_kwargs lang f) (u "tide"))
    with (Some (tide_display lang f)).
  congruence.
Qed.

Lemma render_literal ff (kw : kwargs) (ex : str -> outcome str) : forall s,
  brace_free s -> render ff kw ex (scan SLiteral s) = Ok s.
Proof.
  induction s as [|c s IH]; intros H; [reflexivity|].
  inversion H as [|? ? [Hl Hr] Hs]; subst.
  cbn [scan step].
  destruct (N.eqb_spec c lbrace) as [?|_]; [contradiction|].
  destruct (N.eqb_spec c rbrace) as [?|_]; [contradiction|].
  cbn [render]. now rewrite (IH Hs).
Qed.

Lemma format_literal ff (kw : kwargs) (s : str) :
  brace_free s -> format ff s kw = Ok s.
Proof. intros H. now apply render_literal. Qed.

Lemma forecasts_loop_literal (w : world) (t : template) (lang : Language) :
  brace_free (forecast_item t) ->
  forall fs acc, exists txt, forecasts_loop w t lang fs acc = Ok txt.
Proof.
  intros H. induction fs as [|f fs IH]; intros acc; simpl.
  - now exists acc.
  - rewrite (format_literal (format_field w) (item_kwargs lang f) H).
    simpl. apply IH.
Qed.

(** X15. A template without braces is static text: whatever the document
    and the language, the rendering is the outer template itself. *)
Theorem X15_brace_free_template_is_static (w : world) (d : weather_data)
    (t : template) (lang : Language) :
  brace_free (main_template t) ->
  brace_free (forecast_item t) ->
  generate_markdown w d t lang = Ok (main_template t).
Proof.
  intros Hm Hi. unfold generate_markdown.
  destruct (forecasts_loop_literal w t lang Hi (forecasts d) [])
    as [txt ->].
  simpl. now apply format_literal.
Qed.

Lemma X15_witness :
  generate_markdown Sample.offline Sample.one_day Sample2.static ENGLISH
  = Ok (main_template Sample2.static).
Proof.
  apply (X15_brace_free_template_is_static Sample.offline Sample.one_day
           Sample2.static ENGLISH);
    vm_compute; repeat constructor; discriminate.
Defined.

(** X16. One forecast whose fragment cannot be formatted makes the whole
    rendering fail, wherever it stands in the document and whether or not
    the outer template shows the forecasts. *)
Theorem X16_one_bad_fragment_fails_all (w : world) (d : weather_data)
    (t : template) (lang : Language) (f : forecast) (e : exn) :
  In f (forecasts d) ->
  format (format_field w) (forecast_item t) (item_kwargs lang f) = Raise e ->
  generate_markdown w d t lang = Raise FormatError.
Proof.
  intros Hin Hf. unfold generate_markdown.
  destruct (forecasts_loop w t lang (forecasts d) []) as [txt|e'] eqn:El.
  - apply forecasts_loop_ok in El as (frags & Hfr & _).
    exfalso. revert Hin. induction Hfr as [|g frag fs frags Hg _ IH];
      intros Hin; [destruct Hin|].
    destruct Hin as [->|Hin]; [congruence | now apply IH].
  - simpl. now rewrite (forecasts_loop_class _ _ _ _ _ El).
Qed.

Lemma X16_witness :
  generate_markdown Sample.offline Sample.one_day Sample.windy ENGLISH
  = Raise FormatError.
Proof.
  apply (@X16_one_bad_fragment_fails_all Sample.offline Sample.one_day
           Sample.windy ENGLISH
           {| date := PyStr (u "2024-05-02");
              description := PyStr (u "Sunny");
              tide := PyStr (u "NIL") |}
           FormatError).
  - left. reflexivity.
  - reflexivity.
Defined.

(** X17. A rendering that fails is reported as an unexpected error: the run
    ends with status 1 and nothing on standard output, after both progress
    messages, and the exception is a formatting error. *)
Theorem X17_render_failure_is_unexpected (w : world) (a : args)
    (printed : list diag) (t : template) (content : bytes)
    (d : weather_data) (e : exn) :
  let lang := fst (choose_source a) in
  let url := snd (choose_source a) in
  let template_file := choose_template a lang in
  arg_list_templates a = false ->
  load_or_default w template_file lang = (printed, Ok t) ->
  http_get w url = Ok content ->
  parse_weather_xml w content = Ok d ->
  generate_markdown w d t lang = Raise e ->
  e = FormatError
  /\ main w a
     = {| stdout := [];
          stderr := printed ++ [Fetching lang url; Generating template_file;
                                UnexpectedError FormatError];
          exit_status := 1 |}.
Proof.
  intros lang url template_file Hl Hd Hg Hp Hm.
  assert (He : e = FormatError).
  { unfold generate_markdown in Hm.
    destruct (forecasts_loop w t lang (forecasts d) []) as [txt|e'] eqn:El;
      simpl in Hm.
    - exact (build_string_class _ _ _ _ Hm).
    - injection Hm as <-. exact (forecasts_loop_class _ _ _ _ _ El). }
  split; [exact He|]. subst e.
  rewrite (main_run w a Hl). fold lang. fold url. fold template_file.
  rewrite Hd. unfold fetch_and_render, fatal. rewrite Hg, Hp, Hm. simpl.
  now rewrite <- !app_assoc.
Qed.

Lemma X17_witness :
  stdout (main (Sample2.stocked Sample2.windy_file Sample.feed)
               Sample.no_flags) = []
  /\ exit_status (main (Sample2.stocked Sample2.windy_file Sample.feed)
                       Sample.no_flags) = 1.
Proof.
  destruct (@X17_render_failure_is_unexpected
              (Sample2.stocked Sample2.windy_file Sample.feed)
              Sample.no_flags []
              {| main_template := u "# {forecasts}";
                 forecast_item := u "{wind}" |}
              [60; 70; 47; 62]
              {| system := {| author := PyStr (u "SMG");
                              pubdate := PyStr (u "2024-05-01 08:00");
                              language := PyStr (u "E") |};
                 today_situation := PyStr (u "Fine");
                 forecasts :=
                   map forecast_of
                       (findall_desc (u "WeatherForecast") Sample.feed) |}
              FormatError) as [_ H].
  - reflexivity.
  - vm_compute. reflexivity.
  - reflexivity.
  - reflexivity.
  - vm_compute. reflexivity.
  - rewrite H. split; reflexivity.
Defined.

(** ** Parsing *)

Lemma find_desc_none (name : str) (root : element) :
  find_desc name root = None
  <-> forall e, In e (flat_map iter (children root)) -> tag e <> name.
Proof.
  unfold find_desc, findall_desc.
  induction (flat_map iter (children root)) as [|x l IH]; simpl.
  - split; [intros _ e [] | reflexivity].
  - unfold has_tag at 1. destruct (Str.eqb (tag x) name) eqn:E; simpl.
    + apply eqb_eq in E. split; [discriminate|].
      intros H. exfalso. apply (H x); [now left | exact E].
    + rewrite IH. split.
      * intros H e [<-|He]; [|now apply H].
        intros K. apply eqb_eq in K. congruence.
      * intros H e He. apply H. now right.
Qed.

(** The element found is the first of its tag in document order. *)
Lemma find_desc_first (name : str) (root e : element) :
  find_desc name root = Some e ->
  exists pre post,
    flat_map iter (children root) = pre ++ e :: post
    /\ tag e = name
    /\ forall x, In x pre -> tag x <> name.
Proof.
  unfold find_desc, findall_desc.
  induction (flat_map iter (children root)) as [|x l IH]; simpl;
    [discriminate|].
  unfold has_tag at 1. destruct (Str.eqb (tag x) name) eqn:E; simpl.
  - intros [= <-]. apply eqb_eq in E. exists [], l.
    split; [reflexivity|]. split; [exact E|]. intros y [].
  - intros H. destruct (IH H) as (pre & post & -> & Ht & Hpre).
    exists (x :: pre), post. split; [reflexivity|]. split; [exact Ht|].
    intros y [<-|Hy]; [|now apply Hpre].
    intros K. apply eqb_eq in K. congruence.
Qed.

(** X18. [parse_weather_xml] finds the system elements at any depth below
    the root, and only there: the parse of a tree succeeds exactly when
    each of [SysAuthor], [SysPubdate] and [SysLanguage] is the tag of some
    element below the root, and the tag and text of the root itself play no
    part. *)
Theorem X18_metadata_anywhere_below_root (root : element) :
  ((exists d, parse_root root = Ok d)
   <-> forall name,
         In name [u "SysAuthor"; u "SysPubdate"; u "SysLanguage"] ->
         exists e, In e (flat_map iter (children root)) /\ tag e = name)
  /\ forall name x,
       parse_root (Element name x (children root)) = parse_root root.
Proof.
  split; [|now destruct root].
  assert (Hsome : forall name,
             find_desc name root <> None
             <-> exists e,
                   In e (flat_map iter (children root)) /\ tag e = name).
  { intros name. split.
    - destruct (find_desc name root) as [e|] eqn:E; [|congruence].
      intros _. apply find_desc_first in E as (pre & post & Hl & Ht & _).
      exists e. split; [|exact Ht]. rewrite Hl. apply in_elt.
    - intros (e & He & Ht) Hn.
      exact (proj1 (find_desc_none name root) Hn e He Ht). }
  split.
  - intros [d Hd] name Hin. apply Hsome.
    apply parse_root_inv in Hd as (a & p & l & Ha & Hp & Hl & _).
    destruct Hin as [<-|[<-|[<-|[]]]]; intros K;
      [rewrite K in Ha | rewrite K in Hp | rewrite K in Hl]; discriminate.
  - intros H. unfold parse_root.
    destruct (@text_of_some (find_desc (u "SysAuthor") root)) as [a ->];
      [apply Hsome, H; simpl; tauto|].
    destruct (@text_of_some (find_desc (u "SysPubdate") root)) as [p ->];
      [apply Hsome, H; simpl; tauto|].
    destruct (@text_of_some (find_desc (u "SysLanguage") root)) as [l ->];
      [apply Hsome, H; simpl; tauto|].
    simpl. eexists. reflexivity.
Qed.

Lemma X18_witness : exists d, parse_root Sample.feed = Ok d.
Proof.
  apply (proj2 (proj1 (X18_metadata_anywhere_below_root Sample.feed))).
  intros name [<-|[<-|[<-|[]]]].
  - exists (Sample.leaf "SysAuthor" "SMG"). split; [|reflexivity].
    vm_compute. auto 10.
  - exists (Sample.leaf "SysPubdate" "2024-05-01 08:00").
    split; [|reflexivity]. vm_compute. auto 10.
  - exists (Sample.leaf "SysLanguage" "E"). split; [|reflexivity].
    vm_compute. auto 10.
Defined.

(** X22. Where the feed has several elements of one system tag, the first
    in document order is the one read: the author stored is the text of an
    element tagged [SysAuthor] before which no other element of that tag
    stands, and so for the publication date and the language. *)
Theorem X22_first_system_element_wins (root : element) (d : weather_data) :
  parse_root root = Ok d ->
  forall name field,
    In (name, field)
       [(u "SysAuthor", author (system d));
        (u "SysPubdate", pubdate (system d));
        (u "SysLanguage", language (system d))] ->
    exists pre e post,
      flat_map iter (children root) = pre ++ e :: post
      /\ tag e = name
      /\ (forall x, In x pre -> tag x <> name)
      /\ field = text e.
Proof.
  intros Hd name field Hin.
  apply parse_root_inv in Hd as (a & p & l & Ha & Hp & Hl & ->).
  simpl in Hin.
  assert (Hone : forall n v,
             text_of (find_desc n root) = Ok v ->
             exists pre e post,
               flat_map iter (children root) = pre ++ e :: post
               /\ tag e = n
               /\ (forall x, In x pre -> tag x <> n)
               /\ v = text e).
  { intros n v Hv. destruct (find_desc n root) as [e|] eqn:E;
      [|discriminate].
    injection Hv as <-.
    apply find_desc_first in E as (pre & post & H1 & H2 & H3).
    now exists pre, e, post. }
  destruct Hin as [[= <- <-]|[[= <- <-]|[[= <- <-]|[]]]]; now apply Hone.
Qed.

Lemma X22_witness :
  List.length (findall_desc (u "SysAuthor") Sample2.doubled_feed) = 2%nat
  /\ exists pre e post,
       flat_map iter (children Sample2.doubled_feed) = pre ++ e :: post
       /\ tag e = u "SysAuthor"
       /\ (forall x, In x pre -> tag x <> u "SysAuthor")
       /\ PyStr (u "SMG") = text e.
Proof.
  split; [reflexivity|].
  apply (@X22_first_system_element_wins Sample2.doubled_feed
           Sample.bare_data eq_refl (u "SysAuthor") (PyStr (u "SMG"))).
  left. reflexivity.
Defined.

Lemma find_childless (name : str) (cs : list element) :
  List.find (has_tag name) (map childless cs)
  = option_map childless (List.find (has_tag name) cs).
Proof.
  induction cs as [|c cs IH]; simpl; [reflexivity|].
  unfold has_tag at 1 3. unfold childless at 1. simpl.
  destruct (Str.eqb (tag c) name); [reflexivity | exact IH].
Qed.

Lemma text_or_childless (o : option element) (fallback : str) :
  text_or (option_map childless o) fallback = text_or o fallback.
Proof. now destruct o. Qed.

(** X19. A forecast is read from the direct children of its
    [WeatherForecast] element: what lies below those children, and the tag
    and text of the element itself, change nothing. *)
Theorem X19_forecast_reads_direct_children (name name' : str) (x x' : pyval)
    (cs : list element) :
  forecast_of (Element name x cs)
  = forecast_of (Element name' x' (map childless cs)).
Proof.
  unfold forecast_of, find_child. cbn [children].
  now rewrite !find_childless, !text_or_childless.
Qed.

(** X20. [parse_weather_xml] fails in two ways only: with the exception of
    the XML parser, passed on as it is ([ParseError] on input that is not
    well-formed), and with [AttributeError] on parsed input that lacks one
    of the three system elements. *)
Theorem X20_parse_failures (w : world) (xml : bytes) (e : exn) :
  parse_weather_xml w xml = Raise e ->
  fromstring w xml = Raise e
  \/ (e = AttributeError
      /\ exists root,
           fromstring w xml = Ok root
           /\ (find_desc (u "SysAuthor") root = None
               \/ find_desc (u "SysPubdate") root = None
               \/ find_desc (u "SysLanguage") root = None)).
Proof.
  unfold parse_weather_xml.
  destruct (fromstring w xml) as [root|e']; [|intros [= <-]; now left].
  intros H. right. unfold parse_root in H.
  destruct (find_desc (u "SysAuthor") root) as [a|] eqn:Ea; simpl in H.
  2: { injection H as <-. split; [reflexivity|]. exists root.
       split; [reflexivity | now left]. }
  destruct (find_desc (u "SysPubdate") root) as [p|] eqn:Ep; simpl in H.
  2: { injection H as <-. split; [reflexivity|]. exists root.
       split; [reflexivity | right; now left]. }
  destruct (find_desc (u "SysLanguage") root) as [l|] eqn:El; simpl in H;
    [discriminate|].
  injection H as <-. split; [reflexivity|]. exists root.
  split; [reflexivity | right; now right].
Qed.

Lemma X20_witness :
  (fromstring (Sample.serving Sample.headless_feed) [] = Raise AttributeError
   \/ (AttributeError = AttributeError
       /\ exists root,
            fromstring (Sample.serving Sample.headless_feed) [] = Ok root
            /\ (find_desc (u "SysAuthor") root = None
                \/ find_desc (u "SysPubdate") root = None
                \/ find_desc (u "SysLanguage") root = None)))
  /\ (fromstring Sample2.misencoded [60; 63] = Raise ValueError
      \/ (ValueError = AttributeError
          /\ exists root,
               fromstring Sample2.misencoded [60; 63] = Ok root
               /\ (find_desc (u "SysAuthor") root = None
                   \/ find_desc (u "SysPubdate") root = None
                   \/ find_desc (u "SysLanguage") root = None))).
Proof.
  split.
  - apply (X20_parse_failures (Sample.serving Sample.headless_feed) []
             (e := AttributeError)).
    reflexivity.
  - apply (X20_parse_failures Sample2.misencoded [60; 63]
             (e := ValueError)).
    reflexivity.
Defined.

(** X21. With a built-in template the output shows, besides the system
    fields, the text of today's situation and the time of the run, each as
    it is. *)
Theorem X21_situation_and_time_shown (w : world) (d : weather_data)
    (l lang : Language) :
  exists out,
    generate_markdown w d (create_default_template l) lang = Ok out
    /\ substring_of (py_str (today_situation d)) out
    /\ substring_of (now w) out.
Proof.
  destruct (generate_markdown_default w d l lang)
    as (frags & out & _ & Hg & Ho).
  exists out. split; [exact Hg|]. split.
  - refine (@format_embeds _ _ _ _ _ (today_situation d)
              (@default_main_has l (u "today_situation") _) _ Ho);
      [simpl; tauto | reflexivity].
  - refine (@format_embeds _ _ _ _ _ (PyStr (now w))
              (@default_main_has l (u "current_time") _) _ Ho);
      [simpl; tauto | reflexivity].
Qed.


(** ** Choosing the template *)

(** X23. An empty [--template] is no template: the run is the one without
    the flag, which takes the default template file of the active language,
    while any other name is taken as it is, whatever the language. *)
Theorem X23_empty_template_name_is_none (w : world) (a : args) :
  (arg_template a = Some [] ->
   main w a = main w (without_template a)
   /\ forall lang, choose_template a lang = DEFAULT_TEMPLATES lang)
  /\ (forall c name lang,
        arg_template a = Some (c :: name) ->
        choose_template a lang = c :: name).
Proof.
  split.
  - intros H. split.
    + unfold main, choose_template, without_template, choose_source.
      cbn [arg_template arg_list_templates arg_url arg_language].
      now rewrite H.
    + intros lang. unfold choose_template. now rewrite H.
  - intros c name lang H. unfold choose_template. now rewrite H.
Qed.

Lemma X23_witness :
  main Sample.offline
    {| arg_template := Some []; arg_list_templates := false;
       arg_url := None; arg_language := Some ENGLISH |}
  = main Sample.offline
      (without_template
         {| arg_template := Some []; arg_list_templates := false;
            arg_url := None; arg_language := Some ENGLISH |}).
Proof.
  destruct (X23_empty_template_name_is_none Sample.offline
              {| arg_template := Some []; arg_list_templates := false;
                 arg_url := None; arg_language := Some ENGLISH |})
    as [H _].
  exact (proj1 (H eq_refl)).
Defined.
